(** * Web Whisper: the content script's command pipeline and the popup's
    recording state, embedded in Rocq.

    Sources: [src/src/content.ts] (command decision, search-query extraction,
    control discovery, search and navigation execution, message handler) and
    [src/src/popup.ts] (push-to-talk recording state, background message
    handler).

    A JavaScript string is modelled as the Rocq [string] of its UTF-8 bytes
    (WTF-8 for lone surrogates).  [toLowerCase] and [trim] work on code
    points with the Unicode data of [Unicode] below; [includes] and the
    case-insensitive regular expression of [extractSearchQuery], whose
    patterns are ASCII, are written out on bytes, which for UTF-8 gives the
    same matches.

    The page is a standards-mode HTML document; selectors, form controls
    and their [value] setter behave as the HTML standard specifies and
    Chromium (where the extension runs) implements it. *)

From Stdlib Require Import List Bool Arith NArith Lia.
From Stdlib Require Import Strings.String Strings.Ascii.
Import ListNotations.
Open Scope string_scope.
Open Scope bool_scope.

(** ** Unicode data

    Case data of Unicode 14.0 (UnicodeData.txt, SpecialCasing.txt and
    DerivedCoreProperties.txt), as used by [String.prototype.toLowerCase]
    (the default, locale-independent full case mapping). *)

Module Unicode.
Local Open Scope N_scope.

(** Simple lower-case mappings, as runs [(lo, hi, stride, target)]: every
    code point [c] with [lo <= c <= hi] and [c - lo] a multiple of [stride]
    maps to [target + (c - lo)].  U+0130 (full mapping to two code points)
    and U+03A3 (context-dependent) are handled apart. *)
Definition lower_runs : list (N * N * N * N) :=
  [(65, 90, 1, 97); (192, 214, 1, 224); (216, 222, 1, 248); (256, 302, 2, 257);
   (306, 310, 2, 307); (313, 327, 2, 314); (330, 374, 2, 331); (376, 376, 1, 255);
   (377, 381, 2, 378); (385, 385, 1, 595); (386, 388, 2, 387); (390, 390, 1, 596);
   (391, 391, 1, 392); (393, 394, 1, 598); (395, 395, 1, 396); (398, 398, 1, 477);
   (399, 399, 1, 601); (400, 400, 1, 603); (401, 401, 1, 402); (403, 403, 1, 608);
   (404, 404, 1, 611); (406, 406, 1, 617); (407, 407, 1, 616); (408, 408, 1, 409);
   (412, 412, 1, 623); (413, 413, 1, 626); (415, 415, 1, 629); (416, 420, 2, 417);
   (422, 422, 1, 640); (423, 423, 1, 424); (425, 425, 1, 643); (428, 428, 1, 429);
   (430, 430, 1, 648); (431, 431, 1, 432); (433, 434, 1, 650); (435, 437, 2, 436);
   (439, 439, 1, 658); (440, 440, 1, 441); (444, 444, 1, 445); (452, 452, 1, 454);
   (453, 453, 1, 454); (455, 455, 1, 457); (456, 456, 1, 457); (458, 458, 1, 460);
   (459, 475, 2, 460); (478, 494, 2, 479); (497, 497, 1, 499); (498, 500, 2, 499);
   (502, 502, 1, 405); (503, 503, 1, 447); (504, 542, 2, 505); (544, 544, 1, 414);
   (546, 562, 2, 547); (570, 570, 1, 11365); (571, 571, 1, 572); (573, 573, 1, 410);
   (574, 574, 1, 11366); (577, 577, 1, 578); (579, 579, 1, 384); (580, 580, 1, 649);
   (581, 581, 1, 652); (582, 590, 2, 583); (880, 882, 2, 881); (886, 886, 1, 887);
   (895, 895, 1, 1011); (902, 902, 1, 940); (904, 906, 1, 941); (908, 908, 1, 972);
   (910, 911, 1, 973); (913, 929, 1, 945); (932, 939, 1, 964); (975, 975, 1, 983);
   (984, 1006, 2, 985); (1012, 1012, 1, 952); (1015, 1015, 1, 1016); (1017, 1017, 1, 1010);
   (1018, 1018, 1, 1019); (1021, 1023, 1, 891); (1024, 1039, 1, 1104); (1040, 1071, 1, 1072);
   (1120, 1152, 2, 1121); (1162, 1214, 2, 1163); (1216, 1216, 1, 1231); (1217, 1229, 2, 1218);
   (1232, 1326, 2, 1233); (1329, 1366, 1, 1377); (4256, 4293, 1, 11520); (4295, 4295, 1, 11559);
   (4301, 4301, 1, 11565); (5024, 5103, 1, 43888); (5104, 5109, 1, 5112); (7312, 7354, 1, 4304);
   (7357, 7359, 1, 4349); (7680, 7828, 2, 7681); (7838, 7838, 1, 223); (7840, 7934, 2, 7841);
   (7944, 7951, 1, 7936); (7960, 7965, 1, 7952); (7976, 7983, 1, 7968); (7992, 7999, 1, 7984);
   (8008, 8013, 1, 8000); (8025, 8031, 2, 8017); (8040, 8047, 1, 8032); (8072, 8079, 1, 8064);
   (8088, 8095, 1, 8080); (8104, 8111, 1, 8096); (8120, 8121, 1, 8112); (8122, 8123, 1, 8048);
   (8124, 8124, 1, 8115); (8136, 8139, 1, 8050); (8140, 8140, 1, 8131); (8152, 8153, 1, 8144);
   (8154, 8155, 1, 8054); (8168, 8169, 1, 8160); (8170, 8171, 1, 8058); (8172, 8172, 1, 8165);
   (8184, 8185, 1, 8056); (8186, 8187, 1, 8060); (8188, 8188, 1, 8179); (8486, 8486, 1, 969);
   (8490, 8490, 1, 107); (8491, 8491, 1, 229); (8498, 8498, 1, 8526); (8544, 8559, 1, 8560);
   (8579, 8579, 1, 8580); (9398, 9423, 1, 9424); (11264, 11311, 1, 11312); (11360, 11360, 1, 11361);
   (11362, 11362, 1, 619); (11363, 11363, 1, 7549); (11364, 11364, 1, 637); (11367, 11371, 2, 11368);
   (11373, 11373, 1, 593); (11374, 11374, 1, 625); (11375, 11375, 1, 592); (11376, 11376, 1, 594);
   (11378, 11378, 1, 11379); (11381, 11381, 1, 11382); (11390, 11391, 1, 575); (11392, 11490, 2, 11393);
   (11499, 11501, 2, 11500); (11506, 11506, 1, 11507); (42560, 42604, 2, 42561); (42624, 42650, 2, 42625);
   (42786, 42798, 2, 42787); (42802, 42862, 2, 42803); (42873, 42875, 2, 42874); (42877, 42877, 1, 7545);
   (42878, 42886, 2, 42879); (42891, 42891, 1, 42892); (42893, 42893, 1, 613); (42896, 42898, 2, 42897);
   (42902, 42920, 2, 42903); (42922, 42922, 1, 614); (42923, 42923, 1, 604); (42924, 42924, 1, 609);
   (42925, 42925, 1, 620); (42926, 42926, 1, 618); (42928, 42928, 1, 670); (42929, 42929, 1, 647);
   (42930, 42930, 1, 669); (42931, 42931, 1, 43859); (42932, 42946, 2, 42933); (42948, 42948, 1, 42900);
   (42949, 42949, 1, 642); (42950, 42950, 1, 7566); (42951, 42953, 2, 42952); (42960, 42960, 1, 42961);
   (42966, 42968, 2, 42967); (42997, 42997, 1, 42998); (65313, 65338, 1, 65345); (66560, 66599, 1, 66600);
   (66736, 66771, 1, 66776); (66928, 66938, 1, 66967); (66940, 66954, 1, 66979); (66956, 66962, 1, 66995);
   (66964, 66965, 1, 67003); (68736, 68786, 1, 68800); (71840, 71871, 1, 71872); (93760, 93791, 1, 93792);
   (125184, 125217, 1, 125218)].

Definition cased_ranges : list (N * N) :=
  [(65, 90); (97, 122); (170, 170); (181, 181); (186, 186); (192, 214);
   (216, 246); (248, 442); (444, 447); (452, 659); (661, 696); (704, 705);
   (736, 740); (837, 837); (880, 883); (886, 887); (890, 893); (895, 895);
   (902, 902); (904, 906); (908, 908); (910, 929); (931, 1013); (1015, 1153);
   (1162, 1327); (1329, 1366); (1376, 1416); (4256, 4293); (4295, 4295); (4301, 4301);
   (4304, 4346); (4349, 4351); (5024, 5109); (5112, 5117); (7296, 7304); (7312, 7354);
   (7357, 7359); (7424, 7615); (7680, 7957); (7960, 7965); (7968, 8005); (8008, 8013);
   (8016, 8023); (8025, 8025); (8027, 8027); (8029, 8029); (8031, 8061); (8064, 8116);
   (8118, 8124); (8126, 8126); (8130, 8132); (8134, 8140); (8144, 8147); (8150, 8155);
   (8160, 8172); (8178, 8180); (8182, 8188); (8305, 8305); (8319, 8319); (8336, 8348);
   (8450, 8450); (8455, 8455); (8458, 8467); (8469, 8469); (8473, 8477); (8484, 8484);
   (8486, 8486); (8488, 8488); (8490, 8493); (8495, 8500); (8505, 8505); (8508, 8511);
   (8517, 8521); (8526, 8526); (8544, 8575); (8579, 8580); (9398, 9449); (11264, 11492);
   (11499, 11502); (11506, 11507); (11520, 11557); (11559, 11559); (11565, 11565); (42560, 42605);
   (42624, 42653); (42786, 42887); (42891, 42894); (42896, 42954); (42960, 42961); (42963, 42963);
   (42965, 42969); (42997, 42998); (43000, 43002); (43824, 43866); (43868, 43880); (43888, 43967);
   (64256, 64262); (64275, 64279); (65313, 65338); (65345, 65370); (66560, 66639); (66736, 66771);
   (66776, 66811); (66928, 66938); (66940, 66954); (66956, 66962); (66964, 66965); (66967, 66977);
   (66979, 66993); (66995, 67001); (67003, 67004); (67456, 67456); (67459, 67461); (67463, 67504);
   (67506, 67514); (68736, 68786); (68800, 68850); (71840, 71903); (93760, 93823); (119808, 119892);
   (119894, 119964); (119966, 119967); (119970, 119970); (119973, 119974); (119977, 119980); (119982, 119993);
   (119995, 119995); (119997, 120003); (120005, 120069); (120071, 120074); (120077, 120084); (120086, 120092);
   (120094, 120121); (120123, 120126); (120128, 120132); (120134, 120134); (120138, 120144); (120146, 120485);
   (120488, 120512); (120514, 120538); (120540, 120570); (120572, 120596); (120598, 120628); (120630, 120654);
   (120656, 120686); (120688, 120712); (120714, 120744); (120746, 120770); (120772, 120779); (122624, 122633);
   (122635, 122654); (125184, 125251); (127280, 127305); (127312, 127337); (127344, 127369)].

Definition case_ignorable_ranges : list (N * N) :=
  [(39, 39); (46, 46); (58, 58); (94, 94); (96, 96); (168, 168);
   (173, 173); (175, 175); (180, 180); (183, 184); (688, 879); (884, 885);
   (890, 890); (900, 901); (903, 903); (1155, 1161); (1369, 1369); (1375, 1375);
   (1425, 1469); (1471, 1471); (1473, 1474); (1476, 1477); (1479, 1479); (1524, 1524);
   (1536, 1541); (1552, 1562); (1564, 1564); (1600, 1600); (1611, 1631); (1648, 1648);
   (1750, 1757); (1759, 1768); (1770, 1773); (1807, 1807); (1809, 1809); (1840, 1866);
   (1958, 1968); (2027, 2037); (2042, 2042); (2045, 2045); (2070, 2093); (2137, 2139);
   (2184, 2184); (2192, 2193); (2200, 2207); (2249, 2306); (2362, 2362); (2364, 2364);
   (2369, 2376); (2381, 2381); (2385, 2391); (2402, 2403); (2417, 2417); (2433, 2433);
   (2492, 2492); (2497, 2500); (2509, 2509); (2530, 2531); (2558, 2558); (2561, 2562);
   (2620, 2620); (2625, 2626); (2631, 2632); (2635, 2637); (2641, 2641); (2672, 2673);
   (2677, 2677); (2689, 2690); (2748, 2748); (2753, 2757); (2759, 2760); (2765, 2765);
   (2786, 2787); (2810, 2815); (2817, 2817); (2876, 2876); (2879, 2879); (2881, 2884);
   (2893, 2893); (2901, 2902); (2914, 2915); (2946, 2946); (3008, 3008); (3021, 3021);
   (3072, 3072); (3076, 3076); (3132, 3132); (3134, 3136); (3142, 3144); (3146, 3149);
   (3157, 3158); (3170, 3171); (3201, 3201); (3260, 3260); (3263, 3263); (3270, 3270);
   (3276, 3277); (3298, 3299); (3328, 3329); (3387, 3388); (3393, 3396); (3405, 3405);
   (3426, 3427); (3457, 3457); (3530, 3530); (3538, 3540); (3542, 3542); (3633, 3633);
   (3636, 3642); (3654, 3662); (3761, 3761); (3764, 3772); (3782, 3782); (3784, 3789);
   (3864, 3865); (3893, 3893); (3895, 3895); (3897, 3897); (3953, 3966); (3968, 3972);
   (3974, 3975); (3981, 3991); (3993, 4028); (4038, 4038); (4141, 4144); (4146, 4151);
   (4153, 4154); (4157, 4158); (4184, 4185); (4190, 4192); (4209, 4212); (4226, 4226);
   (4229, 4230); (4237, 4237); (4253, 4253); (4348, 4348); (4957, 4959); (5906, 5908);
   (5938, 5939); (5970, 5971); (6002, 6003); (6068, 6069); (6071, 6077); (6086, 6086);
   (6089, 6099); (6103, 6103); (6109, 6109); (6155, 6159); (6211, 6211); (6277, 6278);
   (6313, 6313); (6432, 6434); (6439, 6440); (6450, 6450); (6457, 6459); (6679, 6680);
   (6683, 6683); (6742, 6742); (6744, 6750); (6752, 6752); (6754, 6754); (6757, 6764);
   (6771, 6780); (6783, 6783); (6823, 6823); (6832, 6862); (6912, 6915); (6964, 6964);
   (6966, 6970); (6972, 6972); (6978, 6978); (7019, 7027); (7040, 7041); (7074, 7077);
   (7080, 7081); (7083, 7085); (7142, 7142); (7144, 7145); (7149, 7149); (7151, 7153);
   (7212, 7219); (7222, 7223); (7288, 7293); (7376, 7378); (7380, 7392); (7394, 7400);
   (7405, 7405); (7412, 7412); (7416, 7417); (7468, 7530); (7544, 7544); (7579, 7679);
   (8125, 8125); (8127, 8129); (8141, 8143); (8157, 8159); (8173, 8175); (8189, 8190);
   (8203, 8207); (8216, 8217); (8228, 8228); (8231, 8231); (8234, 8238); (8288, 8292);
   (8294, 8303); (8305, 8305); (8319, 8319); (8336, 8348); (8400, 8432); (11388, 11389);
   (11503, 11505); (11631, 11631); (11647, 11647); (11744, 11775); (11823, 11823); (12293, 12293);
   (12330, 12333); (12337, 12341); (12347, 12347); (12441, 12446); (12540, 12542); (40981, 40981);
   (42232, 42237); (42508, 42508); (42607, 42610); (42612, 42621); (42623, 42623); (42652, 42655);
   (42736, 42737); (42752, 42785); (42864, 42864); (42888, 42890); (42994, 42996); (43000, 43001);
   (43010, 43010); (43014, 43014); (43019, 43019); (43045, 43046); (43052, 43052); (43204, 43205);
   (43232, 43249); (43263, 43263); (43302, 43309); (43335, 43345); (43392, 43394); (43443, 43443);
   (43446, 43449); (43452, 43453); (43471, 43471); (43493, 43494); (43561, 43566); (43569, 43570);
   (43573, 43574); (43587, 43587); (43596, 43596); (43632, 43632); (43644, 43644); (43696, 43696);
   (43698, 43700); (43703, 43704); (43710, 43711); (43713, 43713); (43741, 43741); (43756, 43757);
   (43763, 43764); (43766, 43766); (43867, 43871); (43881, 43883); (44005, 44005); (44008, 44008);
   (44013, 44013); (64286, 64286); (64434, 64450); (65024, 65039); (65043, 65043); (65056, 65071);
   (65106, 65106); (65109, 65109); (65279, 65279); (65287, 65287); (65294, 65294); (65306, 65306);
   (65342, 65342); (65344, 65344); (65392, 65392); (65438, 65439); (65507, 65507); (65529, 65531);
   (66045, 66045); (66272, 66272); (66422, 66426); (67456, 67461); (67463, 67504); (67506, 67514);
   (68097, 68099); (68101, 68102); (68108, 68111); (68152, 68154); (68159, 68159); (68325, 68326);
   (68900, 68903); (69291, 69292); (69446, 69456); (69506, 69509); (69633, 69633); (69688, 69702);
   (69744, 69744); (69747, 69748); (69759, 69761); (69811, 69814); (69817, 69818); (69821, 69821);
   (69826, 69826); (69837, 69837); (69888, 69890); (69927, 69931); (69933, 69940); (70003, 70003);
   (70016, 70017); (70070, 70078); (70089, 70092); (70095, 70095); (70191, 70193); (70196, 70196);
   (70198, 70199); (70206, 70206); (70367, 70367); (70371, 70378); (70400, 70401); (70459, 70460);
   (70464, 70464); (70502, 70508); (70512, 70516); (70712, 70719); (70722, 70724); (70726, 70726);
   (70750, 70750); (70835, 70840); (70842, 70842); (70847, 70848); (70850, 70851); (71090, 71093);
   (71100, 71101); (71103, 71104); (71132, 71133); (71219, 71226); (71229, 71229); (71231, 71232);
   (71339, 71339); (71341, 71341); (71344, 71349); (71351, 71351); (71453, 71455); (71458, 71461);
   (71463, 71467); (71727, 71735); (71737, 71738); (71995, 71996); (71998, 71998); (72003, 72003);
   (72148, 72151); (72154, 72155); (72160, 72160); (72193, 72202); (72243, 72248); (72251, 72254);
   (72263, 72263); (72273, 72278); (72281, 72283); (72330, 72342); (72344, 72345); (72752, 72758);
   (72760, 72765); (72767, 72767); (72850, 72871); (72874, 72880); (72882, 72883); (72885, 72886);
   (73009, 73014); (73018, 73018); (73020, 73021); (73023, 73029); (73031, 73031); (73104, 73105);
   (73109, 73109); (73111, 73111); (73459, 73460); (78896, 78904); (92912, 92916); (92976, 92982);
   (92992, 92995); (94031, 94031); (94095, 94111); (94176, 94177); (94179, 94180); (110576, 110579);
   (110581, 110587); (110589, 110590); (113821, 113822); (113824, 113827); (118528, 118573); (118576, 118598);
   (119143, 119145); (119155, 119170); (119173, 119179); (119210, 119213); (119362, 119364); (121344, 121398);
   (121403, 121452); (121461, 121461); (121476, 121476); (121499, 121503); (121505, 121519); (122880, 122886);
   (122888, 122904); (122907, 122913); (122915, 122916); (122918, 122922); (123184, 123197); (123566, 123566);
   (123628, 123631); (125136, 125142); (125252, 125259); (127995, 127999); (917505, 917505); (917536, 917631);
   (917760, 917999)].

Definition uppercase_letter_ranges : list (N * N) :=
  [(65, 90); (192, 214); (216, 222); (256, 256); (258, 258); (260, 260);
   (262, 262); (264, 264); (266, 266); (268, 268); (270, 270); (272, 272);
   (274, 274); (276, 276); (278, 278); (280, 280); (282, 282); (284, 284);
   (286, 286); (288, 288); (290, 290); (292, 292); (294, 294); (296, 296);
   (298, 298); (300, 300); (302, 302); (304, 304); (306, 306); (308, 308);
   (310, 310); (313, 313); (315, 315); (317, 317); (319, 319); (321, 321);
   (323, 323); (325, 325); (327, 327); (330, 330); (332, 332); (334, 334);
   (336, 336); (338, 338); (340, 340); (342, 342); (344, 344); (346, 346);
   (348, 348); (350, 350); (352, 352); (354, 354); (356, 356); (358, 358);
   (360, 360); (362, 362); (364, 364); (366, 366); (368, 368); (370, 370);
   (372, 372); (374, 374); (376, 377); (379, 379); (381, 381); (385, 386);
   (388, 388); (390, 391); (393, 395); (398, 401); (403, 404); (406, 408);
   (412, 413); (415, 416); (418, 418); (420, 420); (422, 423); (425, 425);
   (428, 428); (430, 431); (433, 435); (437, 437); (439, 440); (444, 444);
   (452, 452); (455, 455); (458, 458); (461, 461); (463, 463); (465, 465);
   (467, 467); (469, 469); (471, 471); (473, 473); (475, 475); (478, 478);
   (480, 480); (482, 482); (484, 484); (486, 486); (488, 488); (490, 490);
   (492, 492); (494, 494); (497, 497); (500, 500); (502, 504); (506, 506);
   (508, 508); (510, 510); (512, 512); (514, 514); (516, 516); (518, 518);
   (520, 520); (522, 522); (524, 524); (526, 526); (528, 528); (530, 530);
   (532, 532); (534, 534); (536, 536); (538, 538); (540, 540); (542, 542);
   (544, 544); (546, 546); (548, 548); (550, 550); (552, 552); (554, 554);
   (556, 556); (558, 558); (560, 560); (562, 562); (570, 571); (573, 574);
   (577, 577); (579, 582); (584, 584); (586, 586); (588, 588); (590, 590);
   (880, 880); (882, 882); (886, 886); (895, 895); (902, 902); (904, 906);
   (908, 908); (910, 911); (913, 929); (931, 939); (975, 975); (978, 980);
   (984, 984); (986, 986); (988, 988); (990, 990); (992, 992); (994, 994);
   (996, 996); (998, 998); (1000, 1000); (1002, 1002); (1004, 1004); (1006, 1006);
   (1012, 1012); (1015, 1015); (1017, 1018); (1021, 1071); (1120, 1120); (1122, 1122);
   (1124, 1124); (1126, 1126); (1128, 1128); (1130, 1130); (1132, 1132); (1134, 1134);
   (1136, 1136); (1138, 1138); (1140, 1140); (1142, 1142); (1144, 1144); (1146, 1146);
   (1148, 1148); (1150, 1150); (1152, 1152); (1162, 1162); (1164, 1164); (1166, 1166);
   (1168, 1168); (1170, 1170); (1172, 1172); (1174, 1174); (1176, 1176); (1178, 1178);
   (1180, 1180); (1182, 1182); (1184, 1184); (1186, 1186); (1188, 1188); (1190, 1190);
   (1192, 1192); (1194, 1194); (1196, 1196); (1198, 1198); (1200, 1200); (1202, 1202);
   (1204, 1204); (1206, 1206); (1208, 1208); (1210, 1210); (1212, 1212); (1214, 1214);
   (1216, 1217); (1219, 1219); (1221, 1221); (1223, 1223); (1225, 1225); (1227, 1227);
   (1229, 1229); (1232, 1232); (1234, 1234); (1236, 1236); (1238, 1238); (1240, 1240);
   (1242, 1242); (1244, 1244); (1246, 1246); (1248, 1248); (1250, 1250); (1252, 1252);
   (1254, 1254); (1256, 1256); (1258, 1258); (1260, 1260); (1262, 1262); (1264, 1264);
   (1266, 1266); (1268, 1268); (1270, 1270); (1272, 1272); (1274, 1274); (1276, 1276);
   (1278, 1278); (1280, 1280); (1282, 1282); (1284, 1284); (1286, 1286); (1288, 1288);
   (1290, 1290); (1292, 1292); (1294, 1294); (1296, 1296); (1298, 1298); (1300, 1300);
   (1302, 1302); (1304, 1304); (1306, 1306); (1308, 1308); (1310, 1310); (1312, 1312);
   (1314, 1314); (1316, 1316); (1318, 1318); (1320, 1320); (1322, 1322); (1324, 1324);
   (1326, 1326); (1329, 1366); (4256, 4293); (4295, 4295); (4301, 4301); (5024, 5109);
   (7312, 7354); (7357, 7359); (7680, 7680); (7682, 7682); (7684, 7684); (7686, 7686);
   (7688, 7688); (7690, 7690); (7692, 7692); (7694, 7694); (7696, 7696); (7698, 7698);
   (7700, 7700); (7702, 7702); (7704, 7704); (7706, 7706); (7708, 7708); (7710, 7710);
   (7712, 7712); (7714, 7714); (7716, 7716); (7718, 7718); (7720, 7720); (7722, 7722);
   (7724, 7724); (7726, 7726); (7728, 7728); (7730, 7730); (7732, 7732); (7734, 7734);
   (7736, 7736); (7738, 7738); (7740, 7740); (7742, 7742); (7744, 7744); (7746, 7746);
   (7748, 7748); (7750, 7750); (7752, 7752); (7754, 7754); (7756, 7756); (7758, 7758);
   (7760, 7760); (7762, 7762); (7764, 7764); (7766, 7766); (7768, 7768); (7770, 7770);
   (7772, 7772); (7774, 7774); (7776, 7776); (7778, 7778); (7780, 7780); (7782, 7782);
   (7784, 7784); (7786, 7786); (7788, 7788); (7790, 7790); (7792, 7792); (7794, 7794);
   (7796, 7796); (7798, 7798); (7800, 7800); (7802, 7802); (7804, 7804); (7806, 7806);
   (7808, 7808); (7810, 7810); (7812, 7812); (7814, 7814); (7816, 7816); (7818, 7818);
   (7820, 7820); (7822, 7822); (7824, 7824); (7826, 7826); (7828, 7828); (7838, 7838);
   (7840, 7840); (7842, 7842); (7844, 7844); (7846, 7846); (7848, 7848); (7850, 7850);
   (7852, 7852); (7854, 7854); (7856, 7856); (7858, 7858); (7860, 7860); (7862, 7862);
   (7864, 7864); (7866, 7866); (7868, 7868); (7870, 7870); (7872, 7872); (7874, 7874);
   (7876, 7876); (7878, 7878); (7880, 7880); (7882, 7882); (7884, 7884); (7886, 7886);
   (7888, 7888); (7890, 7890); (7892, 7892); (7894, 7894); (7896, 7896); (7898, 7898);
   (7900, 7900); (7902, 7902); (7904, 7904); (7906, 7906); (7908, 7908); (7910, 7910);
   (7912, 7912); (7914, 7914); (7916, 7916); (7918, 7918); (7920, 7920); (7922, 7922);
   (7924, 7924); (7926, 7926); (7928, 7928); (7930, 7930); (7932, 7932); (7934, 7934);
   (7944, 7951); (7960, 7965); (7976, 7983); (7992, 7999); (8008, 8013); (8025, 8025);
   (8027, 8027); (8029, 8029); (8031, 8031); (8040, 8047); (8120, 8123); (8136, 8139);
   (8152, 8155); (8168, 8172); (8184, 8187); (8450, 8450); (8455, 8455); (8459, 8461);
   (8464, 8466); (8469, 8469); (8473, 8477); (8484, 8484); (8486, 8486); (8488, 8488);
   (8490, 8493); (8496, 8499); (8510, 8511); (8517, 8517); (8579, 8579); (11264, 11311);
   (11360, 11360); (11362, 11364); (11367, 11367); (11369, 11369); (11371, 11371); (11373, 11376);
   (11378, 11378); (11381, 11381); (11390, 11392); (11394, 11394); (11396, 11396); (11398, 11398);
   (11400, 11400); (11402, 11402); (11404, 11404); (11406, 11406); (11408, 11408); (11410, 11410);
   (11412, 11412); (11414, 11414); (11416, 11416); (11418, 11418); (11420, 11420); (11422, 11422);
   (11424, 11424); (11426, 11426); (11428, 11428); (11430, 11430); (11432, 11432); (11434, 11434);
   (11436, 11436); (11438, 11438); (11440, 11440); (11442, 11442); (11444, 11444); (11446, 11446);
   (11448, 11448); (11450, 11450); (11452, 11452); (11454, 11454); (11456, 11456); (11458, 11458);
   (11460, 11460); (11462, 11462); (11464, 11464); (11466, 11466); (11468, 11468); (11470, 11470);
   (11472, 11472); (11474, 11474); (11476, 11476); (11478, 11478); (11480, 11480); (11482, 11482);
   (11484, 11484); (11486, 11486); (11488, 11488); (11490, 11490); (11499, 11499); (11501, 11501);
   (11506, 11506); (42560, 42560); (42562, 42562); (42564, 42564); (42566, 42566); (42568, 42568);
   (42570, 42570); (42572, 42572); (42574, 42574); (42576, 42576); (42578, 42578); (42580, 42580);
   (42582, 42582); (42584, 42584); (42586, 42586); (42588, 42588); (42590, 42590); (42592, 42592);
   (42594, 42594); (42596, 42596); (42598, 42598); (42600, 42600); (42602, 42602); (42604, 42604);
   (42624, 42624); (42626, 42626); (42628, 42628); (42630, 42630); (42632, 42632); (42634, 42634);
   (42636, 42636); (42638, 42638); (42640, 42640); (42642, 42642); (42644, 42644); (42646, 42646);
   (42648, 42648); (42650, 42650); (42786, 42786); (42788, 42788); (42790, 42790); (42792, 42792);
   (42794, 42794); (42796, 42796); (42798, 42798); (42802, 42802); (42804, 42804); (42806, 42806);
   (42808, 42808); (42810, 42810); (42812, 42812); (42814, 42814); (42816, 42816); (42818, 42818);
   (42820, 42820); (42822, 42822); (42824, 42824); (42826, 42826); (42828, 42828); (42830, 42830);
   (42832, 42832); (42834, 42834); (42836, 42836); (42838, 42838); (42840, 42840); (42842, 42842);
   (42844, 42844); (42846, 42846); (42848, 42848); (42850, 42850); (42852, 42852); (42854, 42854);
   (42856, 42856); (42858, 42858); (42860, 42860); (42862, 42862); (42873, 42873); (42875, 42875);
   (42877, 42878); (42880, 42880); (42882, 42882); (42884, 42884); (42886, 42886); (42891, 42891);
   (42893, 42893); (42896, 42896); (42898, 42898); (42902, 42902); (42904, 42904); (42906, 42906);
   (42908, 42908); (42910, 42910); (42912, 42912); (42914, 42914); (42916, 42916); (42918, 42918);
   (42920, 42920); (42922, 42926); (42928, 42932); (42934, 42934); (42936, 42936); (42938, 42938);
   (42940, 42940); (42942, 42942); (42944, 42944); (42946, 42946); (42948, 42951); (42953, 42953);
   (42960, 42960); (42966, 42966); (42968, 42968); (42997, 42997); (65313, 65338); (66560, 66599);
   (66736, 66771); (66928, 66938); (66940, 66954); (66956, 66962); (66964, 66965); (68736, 68786);
   (71840, 71871); (93760, 93791); (119808, 119833); (119860, 119885); (119912, 119937); (119964, 119964);
   (119966, 119967); (119970, 119970); (119973, 119974); (119977, 119980); (119982, 119989); (120016, 120041);
   (120068, 120069); (120071, 120074); (120077, 120084); (120086, 120092); (120120, 120121); (120123, 120126);
   (120128, 120132); (120134, 120134); (120138, 120144); (120172, 120197); (120224, 120249); (120276, 120301);
   (120328, 120353); (120380, 120405); (120432, 120457); (120488, 120512); (120546, 120570); (120604, 120628);
   (120662, 120686); (120720, 120744); (120778, 120778); (125184, 125217)].

Definition in_ranges (c : N) (l : list (N * N)) : bool :=
  existsb (fun p => (fst p <=? c) && (c <=? snd p)) l.

Fixpoint run_lookup (c : N) (l : list (N * N * N * N)) : option N :=
  match l with
  | [] => None
  | (lo, hi, st, t) :: l' =>
      if (lo <=? c) && (c <=? hi) && ((c - lo) mod st =? 0)
      then Some (t + (c - lo)) else run_lookup c l'
  end.

(** The full lower-case mapping of [c], when it has one (U+03A3 apart). *)
Definition case_lookup (c : N) : option (list N) :=
  if c =? 304 then Some [105; 775]                 (* U+0130 -> i U+0307 *)
  else option_map (fun x => [x]) (run_lookup c lower_runs).

Definition is_cased (c : N) : bool := in_ranges c cased_ranges.
Definition is_case_ignorable (c : N) : bool := in_ranges c case_ignorable_ranges.

(** Upper-case letters: general category Lu. *)
Definition is_upper_letter (c : N) : bool := in_ranges c uppercase_letter_ranges.

(** The first character that is not case-ignorable, scanning [l] from its
    head, is cased. *)
Fixpoint cased_after_ignorables (l : list N) : bool :=
  match l with
  | [] => false
  | x :: l' => if is_case_ignorable x then cased_after_ignorables l' else is_cased x
  end.

(** The lower-case mapping of [c] between [before] (reversed) and [after]:
    U+03A3 becomes final sigma U+03C2 when preceded by a cased letter and
    not followed by one (case-ignorable characters skipped), U+03C3
    otherwise. *)
Definition lower_at (before : list N) (c : N) (after : list N) : list N :=
  if c =? 931 then
    if cased_after_ignorables before && negb (cased_after_ignorables after)
    then [962] else [963]
  else match case_lookup c with Some o => o | None => [c] end.

Fixpoint lower_cps (before : list N) (l : list N) : list N :=
  match l with
  | [] => []
  | c :: r => lower_at before c r ++ lower_cps (c :: before) r
  end.

(** White space and line terminators removed by [String.prototype.trim]. *)
Definition js_whitespace (c : N) : bool :=
  existsb (N.eqb c) [9; 10; 11; 12; 13; 32; 160; 5760; 8232; 8233; 8239; 8287;
                     12288; 65279]
  || ((8192 <=? c) && (c <=? 8202)).

(** ** UTF-8 *)

Definition is_cont (b : N) : bool := (128 <=? b) && (b <? 192).

(** Code points of a UTF-8 string.  A byte that does not start a well-formed
    sequence gives U+FFFD (such byte strings are no JavaScript string). *)
Fixpoint decode (s : string) : list N :=
  match s with
  | EmptyString => []
  | String a r =>
      let b := N_of_ascii a in
      if b <? 128 then b :: decode r
      else if (194 <=? b) && (b <=? 223) then
        match r with
        | String a1 r1 =>
            let b1 := N_of_ascii a1 in
            if is_cont b1 then ((b - 192) * 64 + (b1 - 128)) :: decode r1
            else 65533 :: decode r
        | EmptyString => [65533]
        end
      else if (224 <=? b) && (b <=? 239) then
        match r with
        | String a1 (String a2 r2) =>
            let b1 := N_of_ascii a1 in
            let b2 := N_of_ascii a2 in
            let c := (b - 224) * 4096 + (b1 - 128) * 64 + (b2 - 128) in
            if is_cont b1 && is_cont b2 && (2048 <=? c) then c :: decode r2
            else 65533 :: decode r
        | _ => 65533 :: decode r
        end
      else if (240 <=? b) && (b <=? 244) then
        match r with
        | String a1 (String a2 (String a3 r3)) =>
            let b1 := N_of_ascii a1 in
            let b2 := N_of_ascii a2 in
            let b3 := N_of_ascii a3 in
            let c := (b - 240) * 262144 + (b1 - 128) * 4096 + (b2 - 128) * 64
                     + (b3 - 128) in
            if is_cont b1 && is_cont b2 && is_cont b3 && (65536 <=? c)
               && (c <=? 1114111)
            then c :: decode r3
            else 65533 :: decode r
        | _ => 65533 :: decode r
        end
      else 65533 :: decode r
  end.

Definition byte (n : N) : ascii := ascii_of_N n.

Definition encode_cp (c : N) : string :=
  if c <? 128 then String (byte c) EmptyString
  else if c <? 2048 then
    String (byte (192 + (c / 64) mod 32)) (String (byte (128 + c mod 64)) EmptyString)
  else if c <? 65536 then
    String (byte (224 + (c / 4096) mod 16))
      (String (byte (128 + (c / 64) mod 64)) (String (byte (128 + c mod 64)) EmptyString))
  else
    String (byte (240 + (c / 262144) mod 8))
      (String (byte (128 + (c / 4096) mod 64))
        (String (byte (128 + (c / 64) mod 64)) (String (byte (128 + c mod 64)) EmptyString))).

Fixpoint encode (l : list N) : string :=
  match l with
  | [] => EmptyString
  | c :: l' => encode_cp c ++ encode l'
  end.

End Unicode.

(** ** String primitives *)

Module Str.
Import Unicode.

(** ASCII upper-case letters 'A'..'Z'. *)
Definition is_upper (c : ascii) : bool :=
  let n := N_of_ascii c in ((65 <=? n) && (n <=? 90))%N.

(** ASCII lower-casing of one byte: 'A'..'Z' become 'a'..'z'. *)
Definition lower_char (c : ascii) : ascii :=
  if is_upper c then ascii_of_N (N_of_ascii c + 32) else c.

(** ASCII lowercase (HTML keyword attributes such as [type]). *)
Fixpoint ascii_lower (s : string) : string :=
  match s with
  | EmptyString => EmptyString
  | String c r => String (lower_char c) (ascii_lower r)
  end.

(** [String.prototype.toLowerCase]. *)
Definition toLowerCase (s : string) : string :=
  encode (lower_cps [] (decode s)).

(** [p] is a prefix of [s]. *)
Fixpoint starts_with (p s : string) : bool :=
  match p, s with
  | EmptyString, _ => true
  | String a p', String b s' => Ascii.eqb a b && starts_with p' s'
  | String _ _, EmptyString => false
  end.

(** [p] is a prefix of [s], comparing ASCII letters case-insensitively (the
    [i] flag of a regular expression whose pattern is ASCII, and of an
    attribute selector). *)
Fixpoint starts_with_ci (p s : string) : bool :=
  match p, s with
  | EmptyString, _ => true
  | String a p', String b s' =>
      Ascii.eqb (lower_char a) (lower_char b) && starts_with_ci p' s'
  | String _ _, EmptyString => false
  end.

(** [String.prototype.includes]. *)
Fixpoint includes (s p : string) : bool :=
  starts_with p s ||
  match s with
  | EmptyString => false
  | String _ r => includes r p
  end.

(** ASCII case-insensitive substring test. *)
Fixpoint includes_ci (s p : string) : bool :=
  starts_with_ci p s ||
  match s with
  | EmptyString => false
  | String _ r => includes_ci r p
  end.

(** ASCII case-insensitive equality. *)
Definition eqb_ci (s t : string) : bool := String.eqb (ascii_lower s) (ascii_lower t).

Fixpoint drop_ws (l : list N) : list N :=
  match l with
  | [] => []
  | c :: r => if js_whitespace c then drop_ws r else l
  end.

(** [String.prototype.trim]. *)
Definition trim (s : string) : string :=
  encode (rev (drop_ws (rev (drop_ws (decode s))))).

(** ASCII whitespace of HTML: TAB, LF, FF, CR, SPACE. *)
Definition is_ascii_ws (c : ascii) : bool :=
  let n := N_of_ascii c in existsb (N.eqb n) [9%N; 10%N; 12%N; 13%N; 32%N].

Fixpoint rev_str (s : string) : string :=
  match s with
  | EmptyString => EmptyString
  | String c r => rev_str r ++ String c EmptyString
  end.

Fixpoint strip_leading_ascii_ws (s : string) : string :=
  match s with
  | EmptyString => EmptyString
  | String c r => if is_ascii_ws c then strip_leading_ascii_ws r else s
  end.

(** Strip leading and trailing ASCII whitespace. *)
Definition strip_ascii_ws (s : string) : string :=
  rev_str (strip_leading_ascii_ws (rev_str (strip_leading_ascii_ws s))).

(** Strip newlines: remove every LF and CR. *)
Fixpoint strip_newlines (s : string) : string :=
  match s with
  | EmptyString => EmptyString
  | String c r =>
      if existsb (N.eqb (N_of_ascii c)) [10%N; 13%N] then strip_newlines r
      else String c (strip_newlines r)
  end.

(** Strictly split on commas. *)
Fixpoint split_commas_aux (cur : string) (s : string) : list string :=
  match s with
  | EmptyString => [rev_str cur]
  | String c r =>
      if Ascii.eqb c ","%char then rev_str cur :: split_commas_aux EmptyString r
      else split_commas_aux (String c cur) r
  end.

Definition split_commas (s : string) : list string := split_commas_aux EmptyString s.

Fixpoint join_commas (l : list string) : string :=
  match l with
  | [] => EmptyString
  | [x] => x
  | x :: l' => x ++ "," ++ join_commas l'
  end.

End Str.

(** ** Command decision: [executeBasicCommand] and [extractSearchQuery] *)

Module Command.
Import Str.

(** The alternatives of [/search for|find|look for|show me/gi], in order. *)
Definition search_phrases : list string :=
  ["search for"; "find"; "look for"; "show me"].

(** The first alternative matching at the head of [s] (regular-expression
    alternation tries them left to right), returned as its length. *)
Fixpoint first_alternative (alts : list string) (s : string) : option nat :=
  match alts with
  | [] => None
  | p :: ps => if starts_with_ci p s then Some (String.length p)
               else first_alternative ps s
  end.

(** [s.replace(/search for|find|look for|show me/gi, '')]: scan left to right;
    where an alternative matches, drop the match and resume after it;
    otherwise keep the character.  [skip] counts the characters of the
    current match still to be dropped. *)
Fixpoint replace_phrases (skip : nat) (s : string) : string :=
  match s with
  | EmptyString => EmptyString
  | String c r =>
      match skip with
      | S k => replace_phrases k r
      | O =>
          match first_alternative search_phrases s with
          | Some n => replace_phrases (pred n) r
          | None => String c (replace_phrases 0 r)
          end
      end
  end.

(** [extractSearchQuery]. *)
Definition extractSearchQuery (text : string) : string :=
  trim (replace_phrases 0 text).

Inductive direction := Next | Previous.

(** The branch [executeBasicCommand] takes. *)
Inductive action :=
| DoSearch (query : string)        (* performSearch(extractSearchQuery(text)) *)
| DoNavigate (d : direction)       (* performNavigation(d) *)
| NotRecognized.                   (* 'Command not recognized' *)

(** [commandData.text?.toLowerCase() || '']. *)
Definition command_text (text : option string) : string :=
  match text with
  | Some t => toLowerCase t
  | None => ""
  end.

(** The keyword tests of [executeBasicCommand], in source order. *)
Definition decide_action (raw : option string) : action :=
  let text := command_text raw in
  if includes text "search" || includes text "find" then
    DoSearch (extractSearchQuery text)
  else if includes text "next page" || includes text "next" then
    DoNavigate Next
  else if includes text "previous page" || includes text "back" then
    DoNavigate Previous
  else NotRecognized.

End Command.

(** ** The page: elements, selectors and discovery *)

Module Dom.
Import Str.

(** An element of the live document (a standards-mode HTML document).
    [eid] is its identity, [tag] its local name (lower case for HTML
    elements), [attrs] its attributes (not its properties: the [value]
    property is the separate field [value]), [parent] the [eid] of its
    parent element, [rendered] whether it has a layout box
    ([offsetParent !== null]), and [html] whether it is in the HTML
    namespace, i.e. an [HTMLElement] (an SVG [<a>] is not). *)
Record element := mkElement {
  eid : nat;
  tag : string;
  attrs : list (string * string);
  parent : option nat;
  value : string;
  rendered : bool;
  html : bool
}.

(** Targets of dispatched events. *)
Inductive target := TElem (n : nat) | TDocument.

(** The observable effects the content script has on the page.  Listeners
    of the page are not modelled: a dispatched event is recorded. *)
Inductive effect :=
| Dispatch (t : target) (type : string) (bubbles : bool)
| Click (n : nat)
| Focus (n : nat)
| FormSubmit (n : nat)
| Later (e : effect).                  (* run by a [setTimeout] callback *)

(** The document: its attached elements in document order, and the effects
    performed on it so far. *)
Record page := mkPage {
  elems : list element;
  effects : list effect
}.

Fixpoint getAttribute (a : string) (l : list (string * string)) : option string :=
  match l with
  | [] => None
  | (k, v) :: l' => if String.eqb k a then Some v else getAttribute a l'
  end.

(** [setAttribute(a, v)]: an existing attribute keeps its place. *)
Fixpoint setAttribute (a v : string) (l : list (string * string))
  : list (string * string) :=
  match l with
  | [] => [(a, v)]
  | (k, w) :: l' => if String.eqb k a then (k, v) :: l' else (k, w) :: setAttribute a v l'
  end.

(** ASCII-whitespace-separated tokens of a [class] attribute. *)
Fixpoint class_tokens_aux (cur : string) (s : string) : list string :=
  match s with
  | EmptyString => if String.eqb cur "" then [] else [rev_str cur]
  | String c r =>
      if is_ascii_ws c then
        (if String.eqb cur "" then [] else [rev_str cur]) ++ class_tokens_aux "" r
      else class_tokens_aux (String c cur) r
  end.

Definition class_tokens (s : string) : list string := class_tokens_aux "" s.

(** Simple selectors of the CSS used by the content script. *)
Inductive simple :=
| STag (t : string)                          (* input *)
| SId (i : string)                           (* #search *)
| SClass (c : string)                        (* .next *)
| SAttrEq (a v : string)                     (* [name="q"] *)
| SAttrSub (a v : string) (ci : bool)        (* [name*="search" i] *)
| SContains (t : string).                    (* :contains("Next") *)

(** A compound selector; a selector is a descendant chain of compounds,
    outermost first. *)
Definition compound := list simple.
Definition selector := list compound.

(** Attributes whose values attribute selectors compare ASCII
    case-insensitively on HTML elements of an HTML document. *)
Definition case_insensitive_attributes : list string :=
  ["accept"; "accept-charset"; "align"; "alink"; "axis"; "bgcolor"; "charset";
   "checked"; "clear"; "codetype"; "color"; "compact"; "declare"; "defer";
   "dir"; "direction"; "disabled"; "enctype"; "face"; "frame"; "hreflang";
   "http-equiv"; "lang"; "language"; "link"; "media"; "method"; "multiple";
   "nohref"; "noresize"; "noshade"; "nowrap"; "readonly"; "rel"; "rev";
   "rules"; "scope"; "scrolling"; "selected"; "shape"; "target"; "text";
   "type"; "valign"; "valuetype"; "vlink"].

Definition attr_ci (a : string) (e : element) : bool :=
  html e && existsb (String.eqb a) case_insensitive_attributes.

Definition simple_matches (s : simple) (e : element) : bool :=
  match s with
  | STag t => String.eqb (tag e) t
  | SId i =>
      match getAttribute "id" (attrs e) with
      | Some v => String.eqb v i | None => false end
  | SClass c =>
      match getAttribute "class" (attrs e) with
      | Some v => existsb (String.eqb c) (class_tokens v) | None => false end
  | SAttrEq a v =>
      match getAttribute a (attrs e) with
      | Some v' => if attr_ci a e then eqb_ci v' v else String.eqb v' v
      | None => false
      end
  | SAttrSub a v ci =>
      match getAttribute a (attrs e) with
      | Some v' =>
          negb (String.eqb v "") &&
          (if ci || attr_ci a e then includes_ci v' v else includes v' v)
      | None => false
      end
  (* not a selector [querySelectorAll] accepts; removed before any query *)
  | SContains _ => false
  end.

Definition compound_matches (c : compound) (e : element) : bool :=
  forallb (fun s => simple_matches s e) c.

Fixpoint find_elem (n : nat) (l : list element) : option element :=
  match l with
  | [] => None
  | e :: l' => if Nat.eqb (eid e) n then Some e else find_elem n l'
  end.

(** Proper ancestors of [e], nearest first. *)
Fixpoint ancestors_aux (fuel : nat) (d : list element) (p : option nat)
  : list element :=
  match fuel with
  | O => []
  | S f =>
      match p with
      | None => []
      | Some n =>
          match find_elem n d with
          | Some a => a :: ancestors_aux f d (parent a)
          | None => []
          end
      end
  end.

Definition ancestors (d : page) (e : element) : list element :=
  ancestors_aux (List.length (elems d)) (elems d) (parent e).

(** The outer compounds (innermost first) matched by ancestors in order. *)
Fixpoint match_up (ancs : list element) (cs : list compound) : bool :=
  match cs with
  | [] => true
  | c :: cs' =>
      match ancs with
      | [] => false
      | a :: ancs' =>
          if compound_matches c a then match_up ancs' cs' else match_up ancs' cs
      end
  end.

Definition matches (d : page) (sel : selector) (e : element) : bool :=
  match rev sel with
  | [] => false
  | c :: outer => compound_matches c e && match_up (ancestors d e) outer
  end.

(** [document.querySelectorAll(sel)]: matching elements in document order. *)
Definition querySelectorAll (d : page) (sel : selector) : list element :=
  filter (matches d sel) (elems d).

(** [document.querySelector(sel)]. *)
Definition querySelector (d : page) (sel : selector) : option element :=
  hd_error (querySelectorAll d sel).

(** [element.closest('form')]: the element itself or its nearest ancestor
    whose local name is [form]. *)
Definition closest_form (d : page) (e : element) : option element :=
  find (fun a => String.eqb (tag a) "form") (e :: ancestors d e).

(** [el instanceof HTMLInputElement]. *)
Definition is_input (e : element) : bool := html e && String.eqb (tag e) "input".

(** The selector list of [findSearchInputs], in source order. *)
Definition search_selectors : list selector := [
  [[STag "input"; SAttrEq "type" "search"]];
  [[STag "input"; SAttrSub "placeholder" "search" true]];
  [[STag "input"; SAttrSub "name" "search" true]];
  [[STag "input"; SAttrSub "id" "search" true]];
  [[STag "input"; SAttrSub "class" "search" true]];
  [[SClass "search-input"]; [STag "input"]];
  [[SId "search"]; [STag "input"]];
  [[SAttrEq "role" "searchbox"]];
  [[STag "input"; SId "input"; SAttrEq "type" "search"]];
  [[STag "input"; SClass "gLFyf"]];
  [[STag "input"; SAttrEq "name" "q"]];
  [[STag "textarea"; SAttrEq "name" "q"]];
  [[STag "input"; SClass "baeIxf"]];
  [[STag "input"; SAttrEq "name" "field-keywords"]];
  [[STag "input"; SAttrEq "id" "twotabsearchtextbox"]];
  [[STag "input"; SAttrSub "placeholder" "Search" true]]
].

(** [findSearchInputs]: for each selector in order, every matching
    [HTMLInputElement] is pushed (an element matched by several selectors is
    pushed several times). *)
Definition findSearchInputs (d : page) : list element :=
  flat_map (fun sel => filter is_input (querySelectorAll d sel)) search_selectors.

Definition nextSelectors : list selector := [
  [[STag "a"; SAttrSub "href" "page" false; SContains "Next"]];
  [[STag "button"; SAttrSub "aria-label" "next" true]];
  [[STag "a"; SAttrSub "aria-label" "next" true]];
  [[SClass "pagination"]; [SClass "next"]];
  [[SClass "pager"]; [SClass "next"]];
  [[SAttrSub "data-testid" "next" false]]
].

Definition prevSelectors : list selector := [
  [[STag "a"; SAttrSub "href" "page" false; SContains "Previous"]];
  [[STag "button"; SAttrSub "aria-label" "previous" true]];
  [[STag "a"; SAttrSub "aria-label" "previous" true]];
  [[SClass "pagination"]; [SClass "prev"]];
  [[SClass "pager"]; [SClass "prev"]];
  [[SAttrSub "data-testid" "prev" false]]
].

Definition not_contains (s : simple) : bool :=
  match s with SContains _ => false | _ => true end.

(** [selector.replace(/:contains\([^)]*\)/g, '')]. *)
Definition cleanSelector (sel : selector) : selector :=
  map (filter not_contains) sel.

(** [findNavigationElements]: the matches of each cleaned selector that are
    [HTMLElement]s. *)
Definition findNavigationElements (dir : Command.direction) (d : page)
  : list element :=
  let selectors := match dir with
                   | Command.Next => nextSelectors
                   | Command.Previous => prevSelectors end in
  flat_map (fun sel => filter html (querySelectorAll d (cleanSelector sel))) selectors.

(** The candidate submit buttons of [performSearch], before the visibility
    filter. *)
Definition search_button_selectors : list selector := [
  [[STag "input"; SAttrEq "name" "btnK"]];
  [[STag "cr-searchbox-icon"; SId "icon"]];
  [[STag "button"; SAttrSub "aria-label" "Search" true]];
  [[STag "button"; SAttrEq "type" "submit"]];
  [[SAttrEq "role" "button"; SAttrSub "aria-label" "Search" true]]
].

(** [btn.offsetParent !== null]: an element outside the HTML namespace has
    no [offsetParent] property, and [undefined !== null]. *)
Definition offsetParent_not_null (b : element) : bool :=
  if html b then rendered b else true.

(** [[querySelector(..), ...].filter(btn => btn && btn.offsetParent !== null)]. *)
Definition searchButtons (d : page) : list element :=
  flat_map (fun sel => match querySelector d sel with
                       | Some b => if offsetParent_not_null b then [b] else []
                       | None => [] end)
           search_button_selectors.

(** *** Forms *)

Definition is_form (x : element) : bool := html x && String.eqb (tag x) "form".

(** The type state of an input: its [type] attribute in ASCII lower case
    when that is a keyword, else [text]. *)
Definition input_types : list string :=
  ["hidden"; "text"; "search"; "tel"; "url"; "email"; "password"; "date";
   "month"; "week"; "time"; "datetime-local"; "number"; "range"; "color";
   "checkbox"; "radio"; "file"; "submit"; "image"; "reset"; "button"].

Definition type_state (e : element) : string :=
  match getAttribute "type" (attrs e) with
  | Some t => if existsb (String.eqb (ascii_lower t)) input_types
              then ascii_lower t else "text"
  | None => "text"
  end.

(** Listed form-associated elements. *)
Definition listed_tags : list string :=
  ["button"; "fieldset"; "input"; "object"; "output"; "select"; "textarea"].

Definition is_listed (x : element) : bool :=
  html x && existsb (String.eqb (tag x)) listed_tags.

(** The nearest ancestor form of [x]. *)
Definition ancestor_form (d : page) (x : element) : option element :=
  find is_form (ancestors d x).

(** The form owner of a listed element: the element with the ID given by
    its [form] attribute when that is a form (no owner otherwise), else its
    nearest ancestor form. *)
Definition form_owner (d : page) (x : element) : option element :=
  match getAttribute "form" (attrs x) with
  | Some i =>
      if String.eqb i "" then None
      else match find (fun y => match getAttribute "id" (attrs y) with
                                | Some j => String.eqb j i | None => false end)
                      (elems d) with
           | Some y => if is_form y then Some y else None
           | None => None
           end
  | None => ancestor_form d x
  end.

Definition owned_by (o : option element) (f : element) : bool :=
  match o with Some y => Nat.eqb (eid y) (eid f) | None => false end.

Definition has_name (x : element) (nm : string) : bool :=
  match getAttribute "id" (attrs x) with Some v => String.eqb v nm | None => false end
  || match getAttribute "name" (attrs x) with Some v => String.eqb v nm | None => false end.

(** [nm] is a supported property name of form [f]: a listed element owned
    by [f] (image buttons apart), or an [img] whose nearest ancestor form is
    [f], has the ID or the name [nm].  [HTMLFormElement] is
    [LegacyOverrideBuiltIns]: such a name hides the method of that name. *)
Definition form_named (d : page) (f : element) (nm : string) : bool :=
  existsb (fun x =>
             has_name x nm &&
             ((is_listed x && negb (String.eqb (tag x) "input" && String.eqb (type_state x) "image")
               && owned_by (form_owner d x) f)
              || (html x && String.eqb (tag x) "img" && owned_by (ancestor_form d x) f)))
          (elems d).

(** [f.m] is a function for [m] = [dispatchEvent] or [submit]: an
    [HTMLFormElement] has both unless a named control hides them; an element
    [closest('form')] returns outside the HTML namespace has [dispatchEvent]
    only. *)
Definition form_method_ok (d : page) (f : element) (m : string) : bool :=
  if html f then negb (form_named d f m) else String.eqb m "dispatchEvent".

End Dom.

(** ** The content script's actions *)

Module Exec.
Import Str Dom Command.

(** A computation of the content script: it reads and updates the page and
    may throw (the [catch] of [handleExecuteCommand]). *)
Inductive outcome (A : Type) := Ok (a : A) | Throw (msg : string).
Arguments Ok {A} a.
Arguments Throw {A} msg.

Definition M (A : Type) := page -> outcome A * page.

Definition ret {A} (a : A) : M A := fun d => (Ok a, d).
Definition bind {A B} (m : M A) (k : A -> M B) : M B :=
  fun d => match m d with
           | (Ok a, d') => k a d'
           | (Throw e, d') => (Throw e, d')
           end.
Definition gets {A} (f : page -> A) : M A := fun d => (Ok (f d), d).
Definition perform (e : effect) : M unit :=
  fun d => (Ok tt, mkPage (elems d) (effects d ++ [e])).
Definition throw {A} (msg : string) : M A := fun d => (Throw msg, d).

Notation "x <- m ;; k" := (bind m (fun x => k))
  (at level 61, m at next level, right associativity).
Notation "m ;; k" := (bind m (fun _ => k))
  (at level 61, right associativity).

(** The [message] of the errors the browser throws (Chromium's wording; V8
    quotes the expression as the shipped script spells it). *)
Definition invalid_state_error : string :=
  "Failed to set the 'value' property on 'HTMLInputElement': This input element accepts a filename, which may only be programmatically set to the empty string.".
Definition not_a_function (expr : string) : string := expr ++ " is not a function".

(** Replace the element [n] of the page. *)
Definition update_elem (n : nat) (f : element -> element) (d : page) : page :=
  mkPage (map (fun e => if Nat.eqb (eid e) n then f e else e) (elems d)) (effects d).

Definition with_value (v : string) (e : element) : element :=
  mkElement (eid e) (tag e) (attrs e) (parent e) v (rendered e) (html e).

Definition with_value_attr (v : string) (e : element) : element :=
  mkElement (eid e) (tag e) (setAttribute "value" v (attrs e)) (parent e) v
            (rendered e) (html e).

(** What the [value] setter of an [HTMLInputElement] does. *)
Inductive value_set := SetValue (v : string) | SetAttr (v : string) | SetRejected.

Section ValueSetter.

(** The value sanitization algorithm of the number, range, color, date and
    time types (it parses and re-serialises numbers, dates and colours). *)
Variable sanitize_other : element -> string -> string.

(** [input.value = v] by the type state of [e], as Chromium implements it:
    the text types remove line breaks; url, and email without [multiple],
    then strip ASCII whitespace at both ends; email with [multiple] strips
    each comma-separated address; the types in default mode set the [value]
    attribute; a file input accepts only the empty string. *)
Definition value_setter (e : element) (v : string) : value_set :=
  let t := type_state e in
  if existsb (String.eqb t) ["text"; "search"; "tel"; "password"] then
    SetValue (strip_newlines v)
  else if String.eqb t "url" then SetValue (strip_ascii_ws (strip_newlines v))
  else if String.eqb t "email" then
    match getAttribute "multiple" (attrs e) with
    | Some _ => SetValue (join_commas (map strip_ascii_ws (split_commas (strip_newlines v))))
    | None => SetValue (strip_ascii_ws (strip_newlines v))
    end
  else if String.eqb t "file" then
    (if String.eqb v "" then SetValue "" else SetRejected)
  else if existsb (String.eqb t)
            ["hidden"; "submit"; "image"; "reset"; "button"; "checkbox"; "radio"] then
    SetAttr v
  else SetValue (sanitize_other e v).

(** [el.value = v] on the input [e]. *)
Definition set_value (e : element) (v : string) : M unit :=
  fun d =>
    match value_setter e v with
    | SetValue w => (Ok tt, update_elem (eid e) (with_value w) d)
    | SetAttr w => (Ok tt, update_elem (eid e) (with_value_attr w) d)
    | SetRejected => (Throw invalid_state_error, d)
    end.

Definition enter_key (t : target) (type : string) : effect :=
  Dispatch t type true.

(** [f.m(...)] where [m] must be a method of [f]. *)
Definition call_form (f : element) (m : string) (e : effect) : M unit :=
  ok <- gets (fun d => form_method_ok d f m) ;;
  if ok then perform e else throw (not_a_function ("form." ++ m)).

(** [performSearch]; the [await] of 100 ms is a pause with no effect on the
    page and is left out, the [setTimeout] of 200 ms is recorded as a
    [Later] effect. *)
Definition performSearch (query : string) : M string :=
  searchInputs <- gets findSearchInputs ;;
  match searchInputs with
  | [] => ret "No search box found on this page"
  | searchInput :: _ =>
      let n := eid searchInput in
      set_value searchInput query ;;
      perform (Dispatch (TElem n) "input" true) ;;
      perform (Dispatch (TElem n) "change" true) ;;
      perform (Focus n) ;;
      form <- gets (fun d => closest_form d searchInput) ;;
      (match form with
       | Some f =>
           call_form f "dispatchEvent" (Dispatch (TElem (eid f)) "submit" true) ;;
           call_form f "submit" (FormSubmit (eid f))
       | None =>
           buttons <- gets searchButtons ;;
           match buttons with
           | b :: _ =>
               if html b then perform (Click (eid b))
               else throw (not_a_function "searchButtons[0].click")
           | [] =>
               perform (enter_key (TElem n) "keydown") ;;
               perform (enter_key (TElem n) "keypress") ;;
               perform (enter_key (TElem n) "keyup") ;;
               perform (enter_key TDocument "keydown") ;;
               perform (Later (enter_key (TElem n) "keydown"))
           end
       end) ;;
      ret ("Searched for: " ++ query)
  end.

Definition direction_name (dir : direction) : string :=
  match dir with Next => "next" | Previous => "previous" end.

(** [performNavigation]: the elements found are [HTMLElement]s, whose
    [click] never throws. *)
Definition performNavigation (dir : direction) : M string :=
  navElements <- gets (findNavigationElements dir) ;;
  match navElements with
  | [] => ret ("No " ++ direction_name dir ++ " button found on this page")
  | element :: _ =>
      perform (Click (eid element)) ;;
      ret ("Clicked " ++ direction_name dir ++ " button")
  end.

(** The [commandData] of an [EXECUTE_VOICE_COMMAND] message. *)
Record command := mkCommand { text : option string }.

(** [executeBasicCommand]. *)
Definition executeBasicCommand (commandData : command) : M string :=
  let text := command_text (text commandData) in
  if includes text "search" || includes text "find" then
    let searchQuery := extractSearchQuery text in
    performSearch searchQuery
  else if includes text "next page" || includes text "next" then
    performNavigation Next
  else if includes text "previous page" || includes text "back" then
    performNavigation Previous
  else ret "Command not recognized".

(** The response sent over the message channel. *)
Record response := mkResponse {
  success : bool;
  result : option string;
  error : option string
}.

(** [handleExecuteCommand]: the response passed to [sendResponse], and the
    page afterwards. *)
Definition handleExecuteCommand (commandData : command) (d : page)
  : response * page :=
  match executeBasicCommand commandData d with
  | (Ok r, d') => (mkResponse true (Some r) None, d')
  | (Throw e, d') => (mkResponse false None (Some e), d')
  end.

End ValueSetter.

(** A sanitizer for the number, range, color, date and time types, used
    only on pages that hold no input of those types (where
    [sanitize_other] is never called, so any choice gives the same run). *)
Definition any_sanitizer : element -> string -> string := fun _ v => v.

End Exec.

Module Popup.

(** [updateButton] states; [processing] disables the button. *)
Inductive button_state := BReady | BRecording | BProcessing.

(** Asynchronous work in flight on the popup's event loop. *)
Inductive task :=
| TGetUserMedia            (* [await getUserMedia] inside [startRecording] *)
| TSimpleGetUserMedia      (* [await getUserMedia] inside [trySimpleRecording] *)
| TOnStop (r : nat)        (* [onstop] of recorder [r]: [handleRecordingComplete] *)
| TPipeline (r : nat).     (* speech recognition and [processVoiceCommand] for [r] *)

(** The popup's globals, the [MediaRecorder]s created so far (identity and
    whether it is still recording) and the pending tasks. *)
Record popup := mkPopup {
  isRecording : bool;
  mediaRecorder : option nat;
  recorders : list (nat * bool);
  button : button_state;
  pending : list task;
  next_id : nat
}.

Definition init : popup := mkPopup false None [] BReady [] 0.

(** Inputs: button events, and the completion of the [i]-th pending task. *)
Inductive event :=
| Press                           (* mousedown *)
| Release                         (* mouseup or mouseleave *)
| GumGranted (i : nat)            (* getUserMedia resolves, the recorder starts *)
| GumFailed (i : nat) (overconstrained : bool)
    (* the [try] block throws; [error.name] is ['OverconstrainedError']? *)
| StopFired (i : nat) (audio : bool)  (* onstop runs; [audioChunks] non-empty? *)
| PipelineDone (i : nat).         (* processVoiceCommand settles *)

Fixpoint remove_nth {A} (i : nat) (l : list A) : list A :=
  match i, l with
  | _, [] => []
  | O, _ :: l' => l'
  | S j, x :: l' => x :: remove_nth j l'
  end.

Definition set_pending (s : popup) (p : list task) : popup :=
  mkPopup (isRecording s) (mediaRecorder s) (recorders s) (button s) p (next_id s).

Definition set_button (s : popup) (b : button_state) : popup :=
  mkPopup (isRecording s) (mediaRecorder s) (recorders s) b (pending s) (next_id s).

(** [startRecording] up to its [await]: the guard on [isRecording]. *)
Definition startRecording (s : popup) : popup :=
  if isRecording s then s
  else set_pending s (pending s ++ [TGetUserMedia]).

(** The rest of [startRecording] (or of [trySimpleRecording]) once the
    microphone stream arrives: a new recorder is created and started,
    [isRecording = true], [updateButton('recording')]. *)
Definition recording_started (s : popup) (rest : list task) : popup :=
  mkPopup true (Some (next_id s)) (recorders s ++ [(next_id s, true)])
          BRecording rest (S (next_id s)).

Definition stop_recorder (r : nat) (l : list (nat * bool)) : list (nat * bool) :=
  map (fun p => if Nat.eqb (fst p) r then (fst p, false) else p) l.

(** [stopRecording]. *)
Definition stopRecording (s : popup) : popup :=
  match isRecording s, mediaRecorder s with
  | true, Some r =>
      mkPopup false (Some r) (stop_recorder r (recorders s)) BProcessing
              (pending s ++ [TOnStop r]) (next_id s)
  | _, _ => s
  end.

(** One step of the popup's event loop.  A disabled button receives no
    mouse events, so [Press] and [Release] do nothing while it shows
    [processing]. *)
Definition step (s : popup) (ev : event) : popup :=
  match ev with
  | Press =>
      match button s with BProcessing => s | _ => startRecording s end
  | Release =>
      match button s with BProcessing => s | _ => stopRecording s end
  | GumGranted i =>
      match nth_error (pending s) i with
      | Some TGetUserMedia | Some TSimpleGetUserMedia =>
          recording_started s (remove_nth i (pending s))
      | _ => s
      end
  | GumFailed i over =>
      match nth_error (pending s) i with
      | Some TGetUserMedia =>
          (* the [catch] of [startRecording]: an [OverconstrainedError] calls
             [trySimpleRecording], which asks again with [audio: true] *)
          if over then set_pending s (remove_nth i (pending s) ++ [TSimpleGetUserMedia])
          else set_pending s (remove_nth i (pending s))
      | Some TSimpleGetUserMedia =>
          (* the [catch] of [trySimpleRecording]: [updateButton('ready')] *)
          set_button (set_pending s (remove_nth i (pending s))) BReady
      | _ => s
      end
  | StopFired i audio =>
      match nth_error (pending s) i with
      | Some (TOnStop r) =>
          if audio then set_pending s (remove_nth i (pending s) ++ [TPipeline r])
          else set_button (set_pending s (remove_nth i (pending s))) BReady
      | _ => s
      end
  | PipelineDone i =>
      match nth_error (pending s) i with
      | Some (TPipeline _) => set_button (set_pending s (remove_nth i (pending s))) BReady
      | _ => s
      end
  end.

Definition run (s : popup) (evs : list event) : popup := fold_left step evs s.

(** Sessions still recording ([Capturing]). *)
Definition capturing (s : popup) : nat :=
  List.length (filter snd (recorders s)).

(** Sessions whose recording stopped and whose pipeline is in flight
    ([Processing]). *)
Definition is_processing_task (t : task) : bool :=
  match t with
  | TOnStop _ | TPipeline _ => true
  | TGetUserMedia | TSimpleGetUserMedia => false
  end.

Definition processing (s : popup) : nat :=
  List.length (filter is_processing_task (pending s)).

End Popup.

(** ** Page analysis and the message handlers *)

Module Messaging.
Import Dom Exec.

(** The [analysis] object of [handleAnalyzePage]; [url] and [title] are
    [window.location.href] and [document.title]. *)
Record analysis := mkAnalysis {
  an_searchInputs : nat;
  an_navigationElements : nat;
  an_url : string;
  an_title : string
}.

(** [handleAnalyzePage]: the [analysis] sent with [success: true]. *)
Definition handleAnalyzePage (url title : string) (d : page) : analysis :=
  mkAnalysis (List.length (findSearchInputs d))
             (List.length (findNavigationElements Command.Next d) +
              List.length (findNavigationElements Command.Previous d))
             url title.

(** What the content script sends back through [sendResponse]. *)
Inductive content_reply :=
| ExecReply (r : response)
| AnalyzeReply (a : analysis).

(** The content script's [chrome.runtime.onMessage] listener: [None] when
    the message type is unknown (no response is sent). *)
Definition content_onMessage (sv : element -> string -> string)
  (type : string) (data : command) (url title : string)
  (d : page) : option content_reply * page :=
  if String.eqb type "EXECUTE_VOICE_COMMAND" then
    let (r, d') := handleExecuteCommand sv data d in (Some (ExecReply r), d')
  else if String.eqb type "ANALYZE_PAGE" then
    (Some (AnalyzeReply (handleAnalyzePage url title d)), d)
  else (None, d).

(** The active tab returned by [chrome.tabs.query]; [tab.id] is falsy when
    absent or 0. *)
Record tab := mkTab { tab_id : option nat }.

(** Whether [chrome.tabs.sendMessage] reaches a content script or rejects
    (with the browser's error message). *)
Inductive delivery := Delivered | Rejected (msg : string).

(** The background's [sendResponse] argument: [result] is the content
    script's whole response ([None] for [undefined]). *)
Record bg_response := mkBgResponse {
  bg_success : bool;
  bg_result : option content_reply;
  bg_error : option string
}.

Definition tab_ok (t : option tab) : bool :=
  match t with
  | Some tb => match tab_id tb with Some (S _) => true | _ => false end
  | None => false
  end.

(** The background's [handleVoiceCommand]: the content script receives an
    [EXECUTE_VOICE_COMMAND] message carrying the command. *)
Definition handleVoiceCommand (sv : element -> string -> string)
  (active : option tab) (del : delivery)
  (url title : string) (commandData : command) (d : page) : bg_response * page :=
  if negb (tab_ok active) then
    (mkBgResponse false None (Some "No active tab found"), d)
  else
    match del with
    | Rejected msg => (mkBgResponse false None (Some msg), d)
    | Delivered =>
        let (reply, d') :=
          content_onMessage sv "EXECUTE_VOICE_COMMAND" commandData url title d in
        (mkBgResponse true reply None, d')
    end.

(** The popup's [processVoiceCommand]: the status text it shows and the
    button state it sets; [None] when [chrome.runtime.sendMessage]
    rejects.  A missing [error] prints as ["undefined"]. *)
Definition processVoiceCommand (reply : option bg_response)
  : string * Popup.button_state :=
  match reply with
  | Some r =>
      if bg_success r then ("✅ Command executed successfully", Popup.BReady)
      else ("❌ " ++ match bg_error r with Some e => e | None => "undefined" end,
            Popup.BReady)
  | None => ("❌ Command processing failed", Popup.BReady)
  end.

End Messaging.
(** * Properties *)

(** ** String lemmas *)

Module StrFacts.
Import Unicode Str.

Lemma starts_with_app_l : forall p q s,
  starts_with (p ++ q) s = true -> starts_with p s = true.
Proof.
  induction p as [|a p IH]; intros q s H; [reflexivity|].
  destruct s as [|b s]; simpl in *; [discriminate|].
  apply andb_true_iff in H as [H1 H2].
  rewrite H1; simpl; eapply IH; eauto.
Qed.

Lemma includes_app_l : forall s p q,
  includes s (p ++ q) = true -> includes s p = true.
Proof.
  induction s as [|c s IH]; intros p q H; simpl in *.
  - rewrite orb_false_r in *. now rewrite (starts_with_app_l p q _ H).
  - apply orb_true_iff in H as [H|H].
    + now rewrite (starts_with_app_l p q _ H).
    + rewrite (IH p q H). apply orb_true_r.
Qed.

(** A string without a byte 'A'..'Z', i.e. (UTF-8 being ASCII-transparent)
    without an ASCII upper-case letter. *)
Fixpoint no_upper (s : string) : bool :=
  match s with
  | EmptyString => true
  | String c r => negb (is_upper c) && no_upper r
  end.

Lemma no_upper_app : forall s t,
  no_upper (s ++ t) = no_upper s && no_upper t.
Proof.
  induction s as [|c s IH]; intro t; simpl; [reflexivity|].
  now rewrite IH, andb_assoc.
Qed.

(** The code point [c] is one of 'A'..'Z'. *)
Definition upper_cp (c : N) : bool := ((65 <=? c) && (c <=? 90))%N.

Definition cps_ok (l : list N) : Prop := Forall (fun c => upper_cp c = false) l.

Lemma is_upper_byte : forall n, (n < 256)%N -> is_upper (byte n) = upper_cp n.
Proof.
  intros n H. unfold is_upper, byte, upper_cp. now rewrite N_ascii_embedding.
Qed.

Lemma high_byte_not_upper : forall n, (128 <= n < 256)%N -> is_upper (byte n) = false.
Proof.
  intros n H. rewrite is_upper_byte by lia. unfold upper_cp.
  apply andb_false_iff; right. apply N.leb_gt. lia.
Qed.

Lemma byte_mod_high : forall base x m,
  m <> 0%N -> (128 <= base)%N -> (base + m <= 256)%N ->
  negb (is_upper (byte (base + x mod m))) = true.
Proof.
  intros base x m Hm H1 H2. pose proof (N.mod_lt x m Hm).
  set (y := (x mod m)%N) in *. clearbody y.
  now rewrite high_byte_not_upper by lia.
Qed.

Lemma encode_cp_no_upper : forall c, upper_cp c = false -> no_upper (encode_cp c) = true.
Proof.
  intros c H. unfold encode_cp.
  destruct (c <? 128)%N eqn:E1.
  - cbn [no_upper]. apply N.ltb_lt in E1. rewrite is_upper_byte by lia. now rewrite H.
  - destruct (c <? 2048)%N; [|destruct (c <? 65536)%N];
      cbn [no_upper]; rewrite !byte_mod_high by lia; reflexivity.
Qed.

Lemma encode_no_upper : forall l, cps_ok l -> no_upper (encode l) = true.
Proof.
  induction l as [|c l IH]; intro H; [reflexivity|].
  inversion H as [|? ? Hc Hl]; subst. cbn [encode].
  rewrite no_upper_app, encode_cp_no_upper, IH; auto.
Qed.

Lemma big_cp_ok : forall c, (90 < c)%N -> upper_cp c = false.
Proof.
  intros c H. unfold upper_cp. apply andb_false_iff; right. apply N.leb_gt. lia.
Qed.

(** Decoding a string without 'A'..'Z' gives no code point 'A'..'Z': an
    ASCII byte decodes to itself and every other sequence to a code point
    from U+0080 on (U+FFFD for a malformed one). *)
Lemma decode_no_upper : forall n s,
  String.length s <= n -> no_upper s = true -> cps_ok (decode s).
Proof.
  induction n as [|n IH]; intros s Hl Hs.
  - destruct s; [constructor | simpl in Hl; lia].
  - destruct s as [|a r]; [constructor|].
    cbn [String.length] in Hl. cbn [no_upper] in Hs.
    apply andb_true_iff in Hs as [Ha Hr].
    assert (IHr : cps_ok (decode r)) by (apply IH; [lia | exact Hr]).
    assert (F : cps_ok (65533%N :: decode r)) by (constructor; [reflexivity | exact IHr]).
    cbn [decode].
    set (b := N_of_ascii a).
    destruct (b <? 128)%N eqn:E0.
    { constructor; [|exact IHr].
      unfold is_upper in Ha; fold b in Ha. unfold upper_cp.
      destruct ((65 <=? b) && (b <=? 90))%N; [discriminate | reflexivity]. }
    destruct ((194 <=? b) && (b <=? 223))%N eqn:E1.
    { apply andb_true_iff in E1 as [E1 _]. apply N.leb_le in E1.
      destruct r as [|a1 r1]; [constructor; [reflexivity | constructor]|].
      cbn [String.length] in Hl. cbn [no_upper] in Hr.
      apply andb_true_iff in Hr as [_ Hr1].
      destruct (is_cont (N_of_ascii a1)) eqn:C; [|exact F].
      constructor; [apply big_cp_ok; lia | apply IH; [lia | exact Hr1]]. }
    destruct ((224 <=? b) && (b <=? 239))%N eqn:E2.
    { destruct r as [|a1 [|a2 r2]]; try exact F.
      cbn [String.length] in Hl. cbn [no_upper] in Hr.
      apply andb_true_iff in Hr as [_ Hr]. apply andb_true_iff in Hr as [_ Hr2].
      match goal with
      | |- cps_ok (if ?t then _ else _) => destruct t eqn:C; [|exact F]
      end.
      apply andb_true_iff in C as [_ C]. apply N.leb_le in C.
      constructor; [apply big_cp_ok; lia | apply IH; [lia | exact Hr2]]. }
    destruct ((240 <=? b) && (b <=? 244))%N eqn:E3; [|exact F].
    destruct r as [|a1 [|a2 [|a3 r3]]]; try exact F.
    cbn [String.length] in Hl. cbn [no_upper] in Hr.
    apply andb_true_iff in Hr as [_ Hr]. apply andb_true_iff in Hr as [_ Hr].
    apply andb_true_iff in Hr as [_ Hr3].
    match goal with
    | |- cps_ok (if ?t then _ else _) => destruct t eqn:C; [|exact F]
    end.
    apply andb_true_iff in C as [C _]. apply andb_true_iff in C as [_ C].
    apply N.leb_le in C.
    constructor; [apply big_cp_ok; lia | apply IH; [lia | exact Hr3]].
Qed.

Lemma drop_ws_ok : forall l, cps_ok l -> cps_ok (drop_ws l).
Proof.
  induction l as [|c l IH]; intro H; [exact H|].
  cbn [drop_ws]. inversion H; subst.
  destruct (js_whitespace c); [apply IH; assumption | exact H].
Qed.

Lemma no_upper_trim : forall s, no_upper s = true -> no_upper (trim s) = true.
Proof.
  intros s H. unfold trim. apply encode_no_upper.
  apply Forall_rev, drop_ws_ok, Forall_rev, drop_ws_ok.
  exact (decode_no_upper _ s (le_n _) H).
Qed.

(** Every lower-case mapping of the table leads to a code point above 'Z'. *)
Lemma lower_runs_targets :
  forallb (fun r : N * N * N * N => let '(_, _, _, t) := r in (90 <? t)%N) lower_runs = true.
Proof. vm_compute. reflexivity. Qed.

Lemma run_lookup_target : forall runs c x,
  forallb (fun r : N * N * N * N => let '(_, _, _, t) := r in (90 <? t)%N) runs = true ->
  run_lookup c runs = Some x -> upper_cp x = false.
Proof.
  induction runs as [|[[[lo hi] st] t] runs IH]; intros c x Hr H; [discriminate|].
  cbn [forallb] in Hr. apply andb_true_iff in Hr as [Ht Hr].
  cbn [run_lookup] in H.
  destruct ((lo <=? c) && (c <=? hi) && ((c - lo) mod st =? 0))%N.
  - injection H as <-. apply N.ltb_lt in Ht. apply big_cp_ok; lia.
  - exact (IH c x Hr H).
Qed.

Lemma run_lookup_upper : forall c,
  upper_cp c = true -> run_lookup c lower_runs = Some (97 + (c - 65))%N.
Proof.
  intros c H. unfold upper_cp in H. apply andb_true_iff in H as [H1 H2].
  unfold lower_runs at 1. cbn [run_lookup]. rewrite H1, H2, N.mod_1_r. reflexivity.
Qed.

Lemma lower_at_ok : forall bef c aft, cps_ok (lower_at bef c aft).
Proof.
  intros bef c aft. unfold lower_at.
  destruct (c =? 931)%N.
  { destruct (_ && _); repeat constructor. }
  unfold case_lookup. destruct (c =? 304)%N; [repeat constructor|].
  destruct (run_lookup c lower_runs) as [x|] eqn:R; cbn [option_map].
  - constructor; [|constructor]. exact (run_lookup_target _ c x lower_runs_targets R).
  - constructor; [|constructor].
    destruct (upper_cp c) eqn:U; [|reflexivity].
    rewrite run_lookup_upper in R by exact U. discriminate.
Qed.

Lemma lower_cps_ok : forall l bef, cps_ok (lower_cps bef l).
Proof.
  induction l as [|c l IH]; intro bef; [constructor|].
  cbn [lower_cps]. apply Forall_app. split; [apply lower_at_ok | apply IH].
Qed.

(** [toLowerCase] leaves no ASCII upper-case letter. *)
Lemma toLowerCase_no_upper : forall s, no_upper (toLowerCase s) = true.
Proof. intro s. apply encode_no_upper, lower_cps_ok. Qed.

End StrFacts.
(** ** The command decision *)

Module CommandFacts.
Import Str StrFacts Command Dom Exec.

(** [executeBasicCommand] runs the branch chosen by [decide_action]. *)
Lemma executeBasicCommand_decide : forall sv c d,
  executeBasicCommand sv c d =
  match decide_action (text c) with
  | DoSearch q => performSearch sv q d
  | DoNavigate dir => performNavigation dir d
  | NotRecognized => ret "Command not recognized" d
  end.
Proof.
  intros sv [t] d. unfold executeBasicCommand, decide_action; simpl.
  destruct (includes (command_text t) "search" || includes (command_text t) "find");
    [reflexivity|].
  destruct (includes (command_text t) "next page" || includes (command_text t) "next");
    [reflexivity|].
  destruct (includes (command_text t) "previous page" || includes (command_text t) "back");
    reflexivity.
Qed.

Lemma includes_next_page : forall s,
  includes s "next page" = true -> includes s "next" = true.
Proof. intros s H. apply (includes_app_l s "next" " page"). exact H. Qed.

Lemma includes_previous_page : forall s,
  includes s "previous page" = true -> includes s "previous" = true.
Proof. intros s H. apply (includes_app_l s "previous" " page"). exact H. Qed.

(** The page before and after a command. *)
Definition empty_page : page := mkPage [] [].

(** A page whose sole search control is one [<input type="search" id="q">]. *)
Definition input_q : element :=
  mkElement 1 "input" [("type", "search"); ("id", "q")] None "" true true.
Definition page_q : page := mkPage [input_q] [].

(** C1, claim as stated: "filter under 100" is classified as Filter and a
    filter action is planned.  The code has no filter branch: the command
    falls through every test and is answered [Command not recognized]. *)
Lemma C1_filter_command_not_recognized :
  decide_action (Some "filter under 100") = NotRecognized /\
  handleExecuteCommand any_sanitizer (mkCommand (Some "filter under 100")) empty_page =
    (mkResponse true (Some "Command not recognized") None, empty_page).
Proof. split; reflexivity. Qed.

(** C1 (amended): there is no filter intent.  A command whose lower-cased
    text contains none of "search", "find", "next", "previous page", "back"
    (whatever filter wording or numbers it holds) is answered with
    [{success: true, result: 'Command not recognized'}] and the page is left
    unchanged. *)
Theorem C1_no_keyword_not_recognized : forall sv t d,
  let x := command_text t in
  includes x "search" = false -> includes x "find" = false ->
  includes x "next" = false -> includes x "previous page" = false ->
  includes x "back" = false ->
  handleExecuteCommand sv (mkCommand t) d =
    (mkResponse true (Some "Command not recognized") None, d).
Proof.
  intros sv t d x Hs Hf Hn Hp Hb.
  unfold handleExecuteCommand.
  rewrite executeBasicCommand_decide; simpl.
  unfold decide_action; fold x.
  rewrite Hs, Hf, Hn, Hp, Hb.
  destruct (includes x "next page") eqn:E;
    [apply includes_next_page in E; congruence|].
  reflexivity.
Qed.

Lemma C1_no_keyword_not_recognized_witness :
  includes "filter under 100" "search" = false /\
  handleExecuteCommand any_sanitizer (mkCommand (Some "filter under 100")) empty_page =
    (mkResponse true (Some "Command not recognized") None, empty_page).
Proof.
  split; [reflexivity|].
  apply (C1_no_keyword_not_recognized any_sanitizer (Some "filter under 100") empty_page);
    reflexivity.
Defined.

End CommandFacts.

Module DecisionFacts.
Import Str StrFacts Command Dom Exec CommandFacts.

(** C2, claim as stated: with no search box on the page the response has
    [success: false].  The response of [handleExecuteCommand] says
    [success: true]; the failure is only in the result text. *)
Lemma C2_no_search_box_success_true :
  handleExecuteCommand any_sanitizer (mkCommand (Some "search for shoes")) empty_page =
    (mkResponse true (Some "No search box found on this page") None, empty_page) /\
  findSearchInputs empty_page = [].
Proof. split; reflexivity. Qed.

(** C2 (amended): when the command is a search and discovery finds no search
    input, nothing throws, the response is
    [{success: true, result: 'No search box found on this page'}], and the
    page (element values and effects) is returned unchanged. *)
Theorem C2_no_search_box_response : forall sv t q d,
  decide_action t = DoSearch q -> findSearchInputs d = [] ->
  handleExecuteCommand sv (mkCommand t) d =
    (mkResponse true (Some "No search box found on this page") None, d).
Proof.
  intros sv t q d Hq Hd.
  unfold handleExecuteCommand.
  rewrite executeBasicCommand_decide; simpl; rewrite Hq.
  unfold performSearch, bind, gets. rewrite Hd. reflexivity.
Qed.

Lemma C2_no_search_box_response_witness :
  findSearchInputs empty_page = [] /\
  handleExecuteCommand any_sanitizer (mkCommand (Some "search for shoes")) empty_page =
    (mkResponse true (Some "No search box found on this page") None, empty_page).
Proof.
  split; [reflexivity|].
  apply (C2_no_search_box_response any_sanitizer (Some "search for shoes") "shoes" empty_page);
    reflexivity.
Defined.

(** C3, claim as stated: text with a filter keyword and a navigation keyword
    resolves to Filter (checked before navigate).  There is no filter
    keyword set: "filter by price next page" resolves to Navigate Next. *)
Lemma C3_filter_and_next_is_navigate :
  includes (command_text (Some "filter by price next page")) "filter" = true /\
  decide_action (Some "filter by price next page") = DoNavigate Next.
Proof. split; reflexivity. Qed.

(** C3 (amended): the keyword tests are ordered "search"/"find" (Search),
    then "next page"/"next" (Navigate Next), then "previous page"/"back"
    (Navigate Previous); the first that matches decides, whatever keywords
    of later tests the text also holds. *)
Theorem C3_priority : forall t,
  let x := command_text t in
  (includes x "search" || includes x "find" = true ->
     decide_action t = DoSearch (extractSearchQuery x)) /\
  (includes x "search" || includes x "find" = false ->
     includes x "next" = true -> decide_action t = DoNavigate Next) /\
  (includes x "search" || includes x "find" = false ->
     includes x "next" = false ->
     includes x "previous page" || includes x "back" = true ->
     decide_action t = DoNavigate Previous).
Proof.
  intros t x. unfold decide_action; fold x.
  repeat split.
  - intro H; now rewrite H.
  - intros H Hn; rewrite H, Hn, orb_true_r; reflexivity.
  - intros H Hn Hp; rewrite H, Hn, Hp.
    destruct (includes x "next page") eqn:E;
      [apply includes_next_page in E; congruence|reflexivity].
Qed.

Lemma C3_priority_witness :
  includes "search for next page" "search" = true /\
  decide_action (Some "search for next page") = DoSearch "next page".
Proof.
  split; [reflexivity|].
  apply (proj1 (C3_priority (Some "search for next page"))); reflexivity.
Defined.

(** C7, claim as stated: "more results" yields direction Next.  The code
    has no such keyword: "show more results" is not recognized. *)
Lemma C7_more_results_not_recognized :
  decide_action (Some "show more results") = NotRecognized.
Proof. reflexivity. Qed.

(** C7 (amended): for text without "search" or "find", "next" yields Next;
    otherwise "previous page" or "back" yields Previous; with none of
    "next", "previous", "back" the command is not recognized. *)
Theorem C7_direction : forall t,
  let x := command_text t in
  includes x "search" = false -> includes x "find" = false ->
  (includes x "next" = true -> decide_action t = DoNavigate Next) /\
  (includes x "next" = false ->
     includes x "previous page" || includes x "back" = true ->
     decide_action t = DoNavigate Previous) /\
  (includes x "next" = false -> includes x "previous" = false ->
     includes x "back" = false -> decide_action t = NotRecognized).
Proof.
  intros t x Hs Hf. unfold decide_action; fold x. rewrite Hs, Hf; simpl.
  destruct (includes x "next page") eqn:E.
  - pose proof (includes_next_page _ E).
    repeat split; intros; congruence.
  - repeat split.
    + intro Hn; now rewrite Hn.
    + intros Hn Hp; now rewrite Hn, Hp.
    + intros Hn Hp Hb. rewrite Hn, Hb.
      destruct (includes x "previous page") eqn:P; [|reflexivity].
      apply includes_previous_page in P; congruence.
Qed.

Lemma C7_direction_witness :
  includes "go back" "search" = false /\
  decide_action (Some "Go Back") = DoNavigate Previous.
Proof.
  split; [reflexivity|].
  apply (proj1 (proj2 (C7_direction (Some "Go Back") eq_refl eq_refl)));
    reflexivity.
Defined.

Lemma replace_phrases_no_upper : forall s k,
  no_upper s = true -> no_upper (replace_phrases k s) = true.
Proof.
  induction s as [|c s IH]; intros k H; [reflexivity|].
  cbn [no_upper] in H. apply andb_true_iff in H as [H1 H2].
  destruct k as [|k]; [|now apply IH].
  change (replace_phrases 0 (String c s)) with
    (match first_alternative search_phrases (String c s) with
     | Some n => replace_phrases (pred n) s
     | None => String c (replace_phrases 0 s)
     end).
  destruct (first_alternative search_phrases (String c s)); [now apply IH|].
  cbn [no_upper]; rewrite H1; now apply IH.
Qed.

(** C10, claim as stated: the query keeps no upper-case letter of the
    command.  [toLowerCase] changes only characters that have a lower-case
    mapping; U+03D2 (GREEK UPSILON WITH HOOK SYMBOL) and U+211D (DOUBLE-STRUCK
    CAPITAL R) are upper-case letters (category Lu) without one, so
    "Search for ϒ" searches for "ϒ" and "Search for ℝ" for "ℝ". *)
Lemma C10_upper_case_letter_kept :
  decide_action (Some "Search for ϒ") = DoSearch "ϒ" /\
  Unicode.decode "ϒ" = [978%N] /\ Unicode.is_upper_letter 978 = true /\
  decide_action (Some "Search for ℝ") = DoSearch "ℝ" /\
  Unicode.decode "ℝ" = [8477%N] /\ Unicode.is_upper_letter 8477 = true /\
  fst (handleExecuteCommand any_sanitizer (mkCommand (Some "Search for ϒ")) page_q) =
    mkResponse true (Some "Searched for: ϒ") None.
Proof. vm_compute. repeat split. Qed.

(** C10 (amended): the query of a search command is computed from the
    lower-cased text, so it holds no ASCII upper-case letter 'A'..'Z', and
    it is the query [performSearch] writes into the input and echoes.
    Upper-case letters without a lower-case mapping are kept. *)
Theorem C10_query_no_ascii_upper : forall sv t q d,
  decide_action t = DoSearch q ->
  no_upper q = true /\ executeBasicCommand sv (mkCommand t) d = performSearch sv q d.
Proof.
  intros sv t q d H. split.
  - unfold decide_action in H.
    destruct (includes (command_text t) "search" || includes (command_text t) "find").
    + injection H as <-. unfold extractSearchQuery.
      apply no_upper_trim, replace_phrases_no_upper.
      destruct t; [apply toLowerCase_no_upper|reflexivity].
    + destruct (_ || _); [discriminate|]. destruct (_ || _); discriminate.
  - rewrite executeBasicCommand_decide; simpl; now rewrite H.
Qed.

Lemma C10_query_no_ascii_upper_witness :
  decide_action (Some "Search for Blue Jeans") = DoSearch "blue jeans" /\
  no_upper "blue jeans" = true.
Proof.
  split; [reflexivity|].
  apply (proj1 (C10_query_no_ascii_upper any_sanitizer (Some "Search for Blue Jeans")
                  "blue jeans" empty_page eq_refl)).
Defined.

End DecisionFacts.
(** ** Search-query extraction *)

Module ExtractFacts.
Import Str Command.














End ExtractFacts.
(** ** Control discovery *)

Module DiscoveryFacts.
Import Str Command Dom Exec CommandFacts.

(** C8: two consecutive scans for search inputs over the same page return
    the same sequence and leave the page unchanged. *)
Theorem C8_discovery_idempotent : forall d,
  (r1 <- gets findSearchInputs ;; r2 <- gets findSearchInputs ;; ret (r1, r2)) d =
  (Ok (findSearchInputs d, findSearchInputs d), d).
Proof. intro d. reflexivity. Qed.

(** A page whose search input and pagination link have no layout box. *)
Definition hidden_input : element :=
  mkElement 1 "input" [("type", "search")] None "" false true.
Definition hidden_next : element :=
  mkElement 2 "button" [("aria-label", "Next page")] None "" false true.
Definition hidden_page : page := mkPage [hidden_input; hidden_next] [].

(** C6: discovery does not filter on visibility: the hidden search input and
    the hidden "next" button are returned, and a search command fills the
    hidden input. *)
Theorem C6_hidden_controls_discovered :
  findSearchInputs hidden_page = [hidden_input] /\
  findNavigationElements Next hidden_page = [hidden_next] /\
  rendered hidden_input = false /\ rendered hidden_next = false /\
  fst (handleExecuteCommand any_sanitizer (mkCommand (Some "search for shoes"))
         hidden_page) =
    mkResponse true (Some "Searched for: shoes") None /\
  find_elem 1 (elems (snd (handleExecuteCommand any_sanitizer
                             (mkCommand (Some "search for shoes")) hidden_page))) =
    Some (mkElement 1 "input" [("type", "search")] None "shoes" false true).
Proof. vm_compute. repeat split. Qed.

End DiscoveryFacts.

(** ** The recording session *)

Module SessionFacts.
Import Popup.

(** A second press while the microphone request of the first is pending:
    [isRecording] is still false, so both presses start a recorder. *)
Definition race : list event :=
  [Press; Release; Press; GumGranted 0; Release; GumGranted 0].

(** C9: after [race], one session is Processing (its recorder stopped, its
    [onstop] pending) while another is Capturing.  Continuing, once the
    first pipeline finishes the button is re-enabled while the second
    session is still Processing, and a new press starts a third recording. *)
Theorem C9_two_sessions_live :
  capturing (run init race) = 1 /\ processing (run init race) = 1 /\
  let s := run init (race ++ [Release; StopFired 0 true; PipelineDone 1])%list in
  processing s = 1 /\ button s = BReady /\
  capturing (run s [Press; GumGranted 1]) = 1 /\
  processing (run s [Press; GumGranted 1]) = 1.
Proof. vm_compute. repeat split. Qed.

End SessionFacts.

(** ** Executing a search: the run of [performSearch] *)

Module SearchRun.
Import Str Command Dom Exec.

(** Updates of elements that keep everything selectors, form ownership and
    the visibility filter read: identity, tag, attributes, parent, layout
    box and namespace. *)
Section Preserving.
Variable g : element -> element.
Hypothesis g_eid : forall x, eid (g x) = eid x.
Hypothesis g_tag : forall x, tag (g x) = tag x.
Hypothesis g_attrs : forall x, attrs (g x) = attrs x.
Hypothesis g_parent : forall x, parent (g x) = parent x.
Hypothesis g_rendered : forall x, rendered (g x) = rendered x.
Hypothesis g_html : forall x, html (g x) = html x.

Definition gpage (d : page) (eff : list effect) : page := mkPage (map g (elems d)) eff.

Lemma find_elem_g : forall m l,
  find_elem m (map g l) = option_map g (find_elem m l).
Proof.
  intro m; induction l as [|a l IH]; simpl; [reflexivity|].
  rewrite g_eid. destruct (Nat.eqb (eid a) m); [reflexivity|exact IH].
Qed.

Lemma ancestors_aux_g : forall f l p,
  ancestors_aux f (map g l) p = map g (ancestors_aux f l p).
Proof.
  induction f as [|f IH]; intros l p; [reflexivity|].
  destruct p as [m|]; [|reflexivity]. simpl.
  rewrite find_elem_g. destruct (find_elem m l) as [a|]; [|reflexivity].
  simpl. rewrite g_parent, IH. reflexivity.
Qed.

Lemma ancestors_g : forall d eff x,
  ancestors (gpage d eff) x = map g (ancestors d x).
Proof.
  intros d eff x. unfold ancestors, gpage; simpl. rewrite length_map.
  apply ancestors_aux_g.
Qed.

Lemma ancestors_g_g : forall d eff x,
  ancestors (gpage d eff) (g x) = map g (ancestors d x).
Proof.
  intros d eff x. rewrite <- (ancestors_g d eff). unfold ancestors. now rewrite g_parent.
Qed.

Lemma simple_matches_g : forall s x, simple_matches s (g x) = simple_matches s x.
Proof.
  intros [] x; simpl; unfold attr_ci; rewrite ?g_tag, ?g_attrs, ?g_html; reflexivity.
Qed.

Lemma compound_matches_g : forall c x,
  compound_matches c (g x) = compound_matches c x.
Proof.
  unfold compound_matches. induction c as [|s c IH]; intro x; [reflexivity|].
  simpl. now rewrite IH, simple_matches_g.
Qed.

Lemma match_up_g : forall ancs cs, match_up (map g ancs) cs = match_up ancs cs.
Proof.
  induction ancs as [|a ancs IH]; intros [|c cs]; try reflexivity.
  simpl. rewrite compound_matches_g, !IH. reflexivity.
Qed.

Lemma matches_g : forall d eff sel x,
  matches (gpage d eff) sel (g x) = matches d sel x.
Proof.
  intros d eff sel x. unfold matches.
  destruct (rev sel) as [|c outer]; [reflexivity|].
  now rewrite compound_matches_g, ancestors_g_g, match_up_g.
Qed.

Lemma querySelectorAll_g : forall d eff sel,
  querySelectorAll (gpage d eff) sel = map g (querySelectorAll d sel).
Proof.
  intros d eff sel. unfold querySelectorAll at 1, gpage; simpl elems.
  rewrite filter_map_swap. f_equal. apply filter_ext. intro x.
  apply matches_g.
Qed.

Lemma searchButtons_g : forall d eff,
  searchButtons (gpage d eff) = map g (searchButtons d).
Proof.
  intros d eff. unfold searchButtons.
  induction search_button_selectors as [|sel sels IH]; [reflexivity|].
  simpl. rewrite map_app, IH. f_equal.
  unfold querySelector. rewrite querySelectorAll_g.
  destruct (querySelectorAll d sel) as [|b bs]; [reflexivity|].
  simpl. unfold offsetParent_not_null. rewrite g_html, g_rendered.
  destruct (if html b then rendered b else true); reflexivity.
Qed.

Lemma find_map_g : forall (P : element -> bool) l,
  (forall x, P (g x) = P x) ->
  find P (map g l) = option_map g (find P l).
Proof.
  intros P l HP. induction l as [|a l IH]; [reflexivity|].
  simpl. rewrite HP. destruct (P a); [reflexivity|exact IH].
Qed.

(** [closest('form')] from an element that is not itself a form. *)
Lemma closest_form_g : forall d eff x,
  String.eqb (tag x) "form" = false ->
  closest_form (gpage d eff) x = option_map g (closest_form d x).
Proof.
  intros d eff x Hx. unfold closest_form. rewrite ancestors_g.
  simpl. rewrite Hx. apply find_map_g. intro; now rewrite g_tag.
Qed.

Lemma is_form_g : forall x, is_form (g x) = is_form x.
Proof. intro x. unfold is_form. now rewrite g_html, g_tag. Qed.

Lemma type_state_g : forall x, type_state (g x) = type_state x.
Proof. intro x. unfold type_state. now rewrite g_attrs. Qed.

Lemma owned_by_g : forall o f, owned_by (option_map g o) (g f) = owned_by o f.
Proof. intros [y|] f; simpl; [now rewrite !g_eid | reflexivity]. Qed.

Lemma ancestor_form_g : forall d eff x,
  ancestor_form (gpage d eff) (g x) = option_map g (ancestor_form d x).
Proof.
  intros d eff x. unfold ancestor_form. rewrite ancestors_g_g.
  apply find_map_g, is_form_g.
Qed.

Lemma form_owner_g : forall d eff x,
  form_owner (gpage d eff) (g x) = option_map g (form_owner d x).
Proof.
  intros d eff x. unfold form_owner. rewrite g_attrs.
  destruct (getAttribute "form" (attrs x)) as [i|]; [|apply ancestor_form_g].
  destruct (String.eqb i ""); [reflexivity|]. unfold gpage; cbn [elems].
  rewrite find_map_g by (intro; now rewrite g_attrs).
  destruct (find _ (elems d)) as [y|]; [|reflexivity]. simpl.
  rewrite is_form_g. destruct (is_form y); reflexivity.
Qed.

Lemma form_named_g : forall d eff f nm,
  form_named (gpage d eff) (g f) nm = form_named d f nm.
Proof.
  intros d eff f nm. unfold form_named.
  change (elems (gpage d eff)) with (map g (elems d)).
  induction (elems d) as [|x l IH]; [reflexivity|]. cbn [map existsb]. rewrite IH.
  unfold has_name, is_listed.
  rewrite g_attrs, g_html, g_tag, type_state_g, form_owner_g, ancestor_form_g, !owned_by_g.
  reflexivity.
Qed.

Lemma form_method_ok_g : forall d eff f m,
  form_method_ok (gpage d eff) (g f) m = form_method_ok d f m.
Proof.
  intros d eff f m. unfold form_method_ok. now rewrite g_html, form_named_g.
Qed.

End Preserving.

(** The element update of [set_value] on input [n] when the value setter
    stores [w]. *)
Definition upd (n : nat) (w : string) (x : element) : element :=
  if Nat.eqb (eid x) n then with_value w x else x.

Ltac upd_field := intros; unfold upd; destruct (Nat.eqb _ _); reflexivity.

Lemma upd_eid : forall n w x, eid (upd n w x) = eid x. Proof. upd_field. Qed.
Lemma upd_tag : forall n w x, tag (upd n w x) = tag x. Proof. upd_field. Qed.
Lemma upd_attrs : forall n w x, attrs (upd n w x) = attrs x. Proof. upd_field. Qed.
Lemma upd_parent : forall n w x, parent (upd n w x) = parent x. Proof. upd_field. Qed.
Lemma upd_rendered : forall n w x, rendered (upd n w x) = rendered x. Proof. upd_field. Qed.
Lemma upd_html : forall n w x, html (upd n w x) = html x. Proof. upd_field. Qed.

(** The effects of the submission step of [performSearch] for input [e], up
    to its end or to the call that throws, and the message thrown, decided
    on the page before the search. *)
Definition submission (d : page) (e : element) : list effect * option string :=
  match closest_form d e with
  | Some f =>
      if form_method_ok d f "dispatchEvent" then
        if form_method_ok d f "submit" then
          ([Dispatch (TElem (eid f)) "submit" true; FormSubmit (eid f)], None)
        else ([Dispatch (TElem (eid f)) "submit" true], Some (not_a_function "form.submit"))
      else ([], Some (not_a_function "form.dispatchEvent"))
  | None =>
      match searchButtons d with
      | b :: _ =>
          if html b then ([Click (eid b)], None)
          else ([], Some (not_a_function "searchButtons[0].click"))
      | [] => ([Dispatch (TElem (eid e)) "keydown" true;
                Dispatch (TElem (eid e)) "keypress" true;
                Dispatch (TElem (eid e)) "keyup" true;
                Dispatch TDocument "keydown" true;
                Later (Dispatch (TElem (eid e)) "keydown" true)], None)
      end
  end.

Lemma findSearchInputs_in : forall d e,
  In e (findSearchInputs d) -> In e (elems d) /\ is_input e = true.
Proof.
  unfold findSearchInputs, querySelectorAll. intros d e H.
  apply in_flat_map in H as [sel [_ H]].
  apply filter_In in H as [H Hi]. apply filter_In in H as [H _]. now split.
Qed.

Lemma is_input_not_form : forall e, is_input e = true -> String.eqb (tag e) "form" = false.
Proof.
  intros e H. unfold is_input in H. apply andb_true_iff in H as [_ H].
  apply String.eqb_eq in H. now rewrite H.
Qed.

(** When a search input [e] is found first and its value setter stores [w],
    [performSearch q] changes only [e]'s value (to [w]), appends the
    [input] and [change] events and the focus on [e], then the submission
    step; it answers "Searched for: q" unless that step throws. *)
Lemma performSearch_run : forall sv q d e rest w,
  findSearchInputs d = e :: rest -> value_setter sv e q = SetValue w ->
  performSearch sv q d =
    (match snd (submission d e) with
     | None => Ok ("Searched for: " ++ q)
     | Some m => Throw m
     end,
     mkPage (map (upd (eid e) w) (elems d))
            (effects d ++ [Dispatch (TElem (eid e)) "input" true;
                           Dispatch (TElem (eid e)) "change" true;
                           Focus (eid e)] ++ fst (submission d e))%list).
Proof.
  intros sv q d e rest w H Hw.
  assert (Hf : String.eqb (tag e) "form" = false).
  { apply is_input_not_form. apply (findSearchInputs_in d e). rewrite H. now left. }
  unfold performSearch, call_form, bind, gets, ret, perform, set_value, throw. cbn beta.
  rewrite H. cbn beta iota. rewrite Hw. unfold update_elem. fold (upd (eid e) w).
  cbn [elems effects].
  set (eff := (((effects d ++ [Dispatch (TElem (eid e)) "input" true]) ++
                [Dispatch (TElem (eid e)) "change" true]) ++ [Focus (eid e)])%list).
  change (mkPage (map (upd (eid e) w) (elems d)) eff) with (gpage (upd (eid e) w) d eff).
  pose proof (upd_eid (eid e) w) as G1. pose proof (upd_tag (eid e) w) as G2.
  pose proof (upd_attrs (eid e) w) as G3. pose proof (upd_parent (eid e) w) as G4.
  pose proof (upd_rendered (eid e) w) as G5. pose proof (upd_html (eid e) w) as G6.
  rewrite (closest_form_g (upd (eid e) w)) by auto.
  unfold submission.
  destruct (closest_form d e) as [f|]; cbn [option_map].
  - cbn beta iota. unfold gpage. cbn [elems effects].
    change (mkPage (map (upd (eid e) w) (elems d)) eff) with (gpage (upd (eid e) w) d eff).
    rewrite (form_method_ok_g (upd (eid e) w)) by auto. rewrite G1.
    destruct (form_method_ok d f "dispatchEvent"); cbn beta iota.
    + unfold gpage. cbn [elems effects].
      change (mkPage (map (upd (eid e) w) (elems d)) (eff ++ [Dispatch (TElem (eid f)) "submit" true])%list)
        with (gpage (upd (eid e) w) d (eff ++ [Dispatch (TElem (eid f)) "submit" true])%list).
      rewrite (form_method_ok_g (upd (eid e) w)) by auto.
      destruct (form_method_ok d f "submit"); cbn beta iota; unfold gpage, eff; cbn [elems effects snd fst];
        rewrite <- !app_assoc; reflexivity.
    + unfold gpage, eff; cbn [snd fst]. rewrite <- !app_assoc, app_nil_r. reflexivity.
  - cbn beta iota.
    rewrite (searchButtons_g (upd (eid e) w)) by auto.
    destruct (searchButtons d) as [|b bs]; cbn [map]; cbn beta iota.
    + unfold gpage, eff; cbn [elems effects snd fst]. rewrite <- !app_assoc. reflexivity.
    + rewrite G6, G1. destruct (html b); cbn beta iota;
        unfold gpage, eff; cbn [elems effects snd fst];
        rewrite <- !app_assoc, ?app_nil_r; reflexivity.
Qed.

End SearchRun.
(** ** Executing a search *)

Module SearchFacts.
Import Str Command Dom Exec CommandFacts SearchRun.









End SearchFacts.

(** ** Executing a search: what changes on the page *)

Module PerformSearchFacts.
Import Str Command Dom Exec SearchRun.

(** When the first search input [e] is of type text, search, tel or
    password, [performSearch q] changes only [e]'s value, to [q] without
    line breaks; it appends to the page's effects the [input] and [change]
    events and the focus on [e], then the submission step chosen from the
    page before the search (the enclosing form's [submit] event and
    [submit()], else a click on the first visible search button, else Enter
    key events).  It answers "Searched for: q" unless that step throws, and
    the changes made up to the throw stay. *)
Theorem performSearch_effects : forall sv q d e rest,
  findSearchInputs d = e :: rest ->
  In (type_state e) ["text"; "search"; "tel"; "password"] ->
  performSearch sv q d =
    (match snd (submission d e) with
     | None => Ok ("Searched for: " ++ q)
     | Some m => Throw m
     end,
     mkPage (map (upd (eid e) (strip_newlines q)) (elems d))
            (effects d ++ [Dispatch (TElem (eid e)) "input" true;
                           Dispatch (TElem (eid e)) "change" true;
                           Focus (eid e)] ++ fst (submission d e))%list).
Proof.
  intros sv q d e rest H Ht. apply (performSearch_run sv q d e rest _ H).
  unfold value_setter.
  simpl in Ht; destruct Ht as [Ht|[Ht|[Ht|[Ht|[]]]]]; rewrite <- Ht; reflexivity.
Qed.

Definition form_el : element := mkElement 1 "form" [] None "" true true.
Definition form_input : element :=
  mkElement 2 "input" [("type", "search")] (Some 1) "" true true.
Definition form_page : page := mkPage [form_el; form_input] [].

Lemma performSearch_effects_witness :
  findSearchInputs form_page = [form_input] /\
  performSearch any_sanitizer ("red" ++ String (ascii_of_nat 10) "jeans") form_page =
    (Ok ("Searched for: red" ++ String (ascii_of_nat 10) "jeans"),
     mkPage [form_el; mkElement 2 "input" [("type", "search")] (Some 1) "redjeans" true true]
            [Dispatch (TElem 2) "input" true; Dispatch (TElem 2) "change" true;
             Focus 2; Dispatch (TElem 1) "submit" true; FormSubmit 1]).
Proof.
  split; [reflexivity|].
  rewrite (performSearch_effects any_sanitizer _ form_page form_input [] eq_refl)
    by (simpl; tauto).
  reflexivity.
Defined.

(** A file input found first (its name, id or class contains "search", say)
    cannot take a non-empty query: the [value] setter throws, the page is
    left as it was and the response has [success: false]. *)
Theorem file_input_search_throws : forall sv q d e rest,
  findSearchInputs d = e :: rest -> type_state e = "file" -> q <> "" ->
  performSearch sv q d = (Throw invalid_state_error, d).
Proof.
  intros sv q d e rest H Ht Hq.
  unfold performSearch, bind, gets, set_value. cbn beta. rewrite H. cbn beta iota.
  unfold value_setter. rewrite Ht. cbn.
  destruct (String.eqb q "") eqn:E; [apply String.eqb_eq in E; contradiction|].
  reflexivity.
Qed.

Definition file_input : element :=
  mkElement 1 "input" [("type", "file"); ("name", "image-search")] None "" true true.
Definition file_page : page := mkPage [file_input] [].

Lemma file_input_search_throws_witness :
  findSearchInputs file_page = [file_input] /\
  performSearch any_sanitizer "cats" file_page = (Throw invalid_state_error, file_page) /\
  fst (handleExecuteCommand any_sanitizer (mkCommand (Some "find cats")) file_page) =
    mkResponse false None (Some invalid_state_error).
Proof.
  split; [reflexivity|].
  assert (W : performSearch any_sanitizer "cats" file_page =
                (Throw invalid_state_error, file_page))
    by (apply (file_input_search_throws any_sanitizer "cats" file_page file_input []);
        [reflexivity | reflexivity | discriminate]).
  split; [exact W|].
  unfold handleExecuteCommand. rewrite CommandFacts.executeBasicCommand_decide.
  change (decide_action (text (mkCommand (Some "find cats")))) with (DoSearch "cats").
  cbv iota beta. rewrite W. reflexivity.
Defined.

End PerformSearchFacts.
(** ** Navigation and page analysis *)

Module NavFacts.
Import Str Command Dom Exec Messaging.

(** The first navigation selector of both lists, once [:contains(..)] is
    removed: [a[href*="page"]]. *)
Definition page_link_selector : selector :=
  [[STag "a"; SAttrSub "href" "page" false]].

Lemma findNavigationElements_page_links : forall dir d,
  exists more,
    findNavigationElements dir d =
      (filter html (querySelectorAll d page_link_selector) ++ more)%list.
Proof. intros [|] d; eexists; reflexivity. Qed.

(** Every HTML link whose [href] contains "page" is found first for both
    directions: when such a link exists, "next" and "previous" commands
    click the same element, the first such link in document order (links
    outside the HTML namespace, such as an SVG [<a>], are skipped). *)
Theorem page_link_clicked_both_ways : forall d a rest,
  filter html (querySelectorAll d page_link_selector) = a :: rest ->
  performNavigation Next d =
    (Ok "Clicked next button", mkPage (elems d) (effects d ++ [Click (eid a)])) /\
  performNavigation Previous d =
    (Ok "Clicked previous button", mkPage (elems d) (effects d ++ [Click (eid a)])).
Proof.
  intros d a rest H.
  destruct (findNavigationElements_page_links Next d) as [m1 E1].
  destruct (findNavigationElements_page_links Previous d) as [m2 E2].
  rewrite H in E1, E2.
  unfold performNavigation, bind, gets, perform, ret. cbn beta.
  rewrite E1, E2. split; reflexivity.
Qed.

(** An SVG link, an HTML link and a "Previous page" button. *)
Definition link_page : page :=
  mkPage [mkElement 1 "a" [("href", "#page-icon")] None "" true false;
          mkElement 2 "a" [("href", "/results?page=2")] None "" true true;
          mkElement 3 "button" [("aria-label", "Previous page")] None "" true true] [].

Lemma page_link_clicked_both_ways_witness :
  filter html (querySelectorAll link_page page_link_selector) =
    [mkElement 2 "a" [("href", "/results?page=2")] None "" true true] /\
  snd (performNavigation Previous link_page) = mkPage (elems link_page) [Click 2].
Proof.
  split; [reflexivity|].
  rewrite (proj2 (page_link_clicked_both_ways link_page _ [] eq_refl)).
  reflexivity.
Defined.

(** [handleAnalyzePage] counts every HTML link whose [href] contains
    "page" at least twice in [navigationElements]: once as a "next" and
    once as a "previous" element. *)
Theorem analyze_counts_page_links_twice : forall url title d,
  2 * List.length (filter html (querySelectorAll d page_link_selector)) <=
  an_navigationElements (handleAnalyzePage url title d).
Proof.
  intros url title d. unfold handleAnalyzePage; simpl an_navigationElements.
  destruct (findNavigationElements_page_links Next d) as [m1 ->].
  destruct (findNavigationElements_page_links Previous d) as [m2 ->].
  rewrite !length_app. lia.
Qed.

End NavFacts.

(** ** Search-input discovery *)

Module SearchDiscoveryFacts.
Import Str Command Dom Exec.

Lemma includes_ci_Search : forall s,
  includes_ci s "Search" = includes_ci s "search".
Proof.
  induction s as [|c s IH]; [reflexivity|].
  change (includes_ci (String c s) "Search") with
    (starts_with_ci "Search" (String c s) || includes_ci s "Search").
  change (includes_ci (String c s) "search") with
    (starts_with_ci "search" (String c s) || includes_ci s "search").
  rewrite IH. reflexivity.
Qed.

(** An input whose placeholder contains "search" in any letter case matches
    both [input[placeholder*="search" i]] and
    [input[placeholder*="Search" i]], which the [i] flag makes the same
    selector: [findSearchInputs] lists it at least twice. *)
Theorem placeholder_search_listed_twice : forall d e v,
  In e (elems d) -> html e = true -> tag e = "input" ->
  getAttribute "placeholder" (attrs e) = Some v ->
  includes_ci v "search" = true ->
  exists l1 l2 l3, findSearchInputs d = (l1 ++ e :: l2 ++ e :: l3)%list.
Proof.
  intros d e v Hin Hh Ht Hp Hv.
  set (F := fun sel => filter is_input (querySelectorAll d sel)).
  assert (M : forall w, w = "search" \/ w = "Search" ->
            In e (F [[STag "input"; SAttrSub "placeholder" w true]])).
  { intros w Hw. unfold F. apply filter_In. split.
    - unfold querySelectorAll. apply filter_In. split; [exact Hin|].
      unfold matches, compound_matches. cbn [rev app forallb simple_matches].
      rewrite Ht, Hp.
      destruct Hw as [-> | ->]; [|rewrite includes_ci_Search]; rewrite Hv;
        destruct (ancestors d e); reflexivity.
    - unfold is_input. rewrite Hh, Ht. reflexivity. }
  assert (E : search_selectors =
    [[STag "input"; SAttrEq "type" "search"]]
    :: [[STag "input"; SAttrSub "placeholder" "search" true]]
    :: (firstn 13 (skipn 2 search_selectors)
        ++ [[[STag "input"; SAttrSub "placeholder" "Search" true]]])%list)
    by reflexivity.
  unfold findSearchInputs. fold F. rewrite E.
  cbn [flat_map]. rewrite flat_map_app. cbn [flat_map]. rewrite app_nil_r.
  destruct (in_split _ _ (M "search" (or_introl eq_refl))) as [a [b Hab]].
  destruct (in_split _ _ (M "Search" (or_intror eq_refl))) as [a' [b' Hab']].
  rewrite Hab, Hab'.
  exists (F [[STag "input"; SAttrEq "type" "search"]] ++ a)%list,
         (b ++ flat_map F (firstn 13 (skipn 2 search_selectors)) ++ a')%list, b'.
  rewrite <- !app_assoc. cbn [app]. rewrite <- ?app_assoc. reflexivity.
Qed.

Definition placeholder_input : element :=
  mkElement 1 "input" [("placeholder", "Search products")] None "" true true.

Lemma placeholder_search_listed_twice_witness :
  includes_ci "Search products" "search" = true /\
  exists l1 l2 l3,
    findSearchInputs (mkPage [placeholder_input] []) =
      (l1 ++ placeholder_input :: l2 ++ placeholder_input :: l3)%list.
Proof.
  split; [reflexivity|].
  apply (placeholder_search_listed_twice (mkPage [placeholder_input] [])
           placeholder_input "Search products");
    [simpl; tauto | reflexivity | reflexivity | reflexivity | reflexivity].
Defined.

End SearchDiscoveryFacts.
(** ** Invariants of the recording state *)

Module PopupFacts.
Import Popup.

(** What every reachable popup state keeps. *)
Definition inv (s : popup) : Prop :=
  (isRecording s = true ->
     exists r, mediaRecorder s = Some r /\ In (r, true) (recorders s)) /\
  (button s = BProcessing -> isRecording s = false) /\
  (forall r b, In (r, b) (recorders s) -> r < next_id s) /\
  (forall r, mediaRecorder s = Some r -> r < next_id s).

Lemma inv_init : inv init.
Proof.
  repeat split; simpl; intros; try discriminate; try contradiction.
Qed.

Lemma inv_set_pending : forall s p, inv s -> inv (set_pending s p).
Proof. intros s p H. exact H. Qed.

Lemma inv_set_ready : forall s, inv s -> inv (set_button s BReady).
Proof.
  intros s (H1 & H2 & H3 & H4). unfold set_button.
  repeat split; simpl; auto. discriminate.
Qed.

Lemma In_stop_recorder : forall r r' b l,
  In (r', b) (stop_recorder r l) -> exists b0, In (r', b0) l.
Proof.
  unfold stop_recorder. intros r r' b l H.
  apply in_map_iff in H as [[x bx] [E Hx]]. simpl in E.
  destruct (Nat.eqb x r); injection E as -> _; eauto.
Qed.

Lemma inv_step : forall s ev, inv s -> inv (step s ev).
Proof.
  intros s ev Hs. pose proof Hs as (H1 & H2 & H3 & H4).
  destruct ev as [| |i|i over|i audio|i]; simpl.
  - destruct (button s); try exact Hs;
      unfold startRecording; destruct (isRecording s); auto using inv_set_pending.
  - destruct (button s); try exact Hs;
      unfold stopRecording; destruct (isRecording s), (mediaRecorder s) as [r|];
      try exact Hs; unfold inv; simpl;
      (split; [discriminate|]); (split; [reflexivity|]); (split; [|exact H4]);
      intros r' b Hin; destruct (In_stop_recorder _ _ _ _ Hin) as [b0 Hb0]; eauto.
  - assert (R : inv (recording_started s (remove_nth i (pending s)))).
    { unfold recording_started. repeat split; simpl.
      + intros _. exists (next_id s). split; [reflexivity|].
        apply in_or_app; right; left; reflexivity.
      + discriminate.
      + intros r b Hin. apply in_app_or in Hin as [Hin|[E|[]]].
        * apply H3 in Hin. lia.
        * injection E as <- _. lia.
      + intros r E. injection E as <-. lia. }
    destruct (nth_error (pending s) i) as [[| | |]|]; first [exact R | exact Hs].
  - destruct (nth_error (pending s) i) as [[| | |]|]; try destruct over;
      auto using inv_set_pending, inv_set_ready.
  - destruct (nth_error (pending s) i) as [[| |r|]|]; try exact Hs.
    destruct audio; auto using inv_set_pending, inv_set_ready.
  - destruct (nth_error (pending s) i) as [[| | |r]|]; try exact Hs.
    auto using inv_set_pending, inv_set_ready.
Qed.

Lemma inv_run : forall evs s, inv s -> inv (run s evs).
Proof.
  induction evs as [|ev evs IH]; intros s H; [exact H|].
  apply IH, inv_step, H.
Qed.

(** In every state reached from the initial popup: when [isRecording] is
    set, the current [mediaRecorder] exists and is recording; while the
    button shows "processing" (disabled), [isRecording] is false; and
    recorder identities are below the next fresh one. *)
Theorem popup_invariant : forall evs, inv (run init evs).
Proof. intro evs. apply inv_run, inv_init. Qed.

Lemma orphan_stopRecording : forall s r,
  In (r, true) (recorders s) -> mediaRecorder s <> Some r ->
  In (r, true) (recorders (stopRecording s)) /\ mediaRecorder (stopRecording s) <> Some r.
Proof.
  intros s r Hin Hm. unfold stopRecording.
  destruct (isRecording s); [|split; assumption].
  destruct (mediaRecorder s) as [r'|] eqn:M; [|simpl; split; [exact Hin|congruence]].
  simpl. split; [|exact Hm].
  unfold stop_recorder. apply in_map_iff. exists (r, true). split; [|exact Hin].
  simpl. destruct (Nat.eqb r r') eqn:E; [|reflexivity].
  apply Nat.eqb_eq in E. subst. contradiction.
Qed.

Lemma orphan_startRecording : forall s r,
  In (r, true) (recorders s) -> mediaRecorder s <> Some r ->
  In (r, true) (recorders (startRecording s)) /\ mediaRecorder (startRecording s) <> Some r.
Proof.
  intros s r Hin Hm. unfold startRecording. destruct (isRecording s); auto.
Qed.

Lemma orphan_step : forall s ev r,
  inv s -> In (r, true) (recorders s) -> mediaRecorder s <> Some r ->
  In (r, true) (recorders (step s ev)) /\ mediaRecorder (step s ev) <> Some r.
Proof.
  intros s ev r Hs Hin Hm. pose proof Hs as (H1 & H2 & H3 & H4).
  destruct ev as [| |i|i over|i audio|i]; simpl.
  - destruct (button s); auto using orphan_startRecording.
  - destruct (button s); auto using orphan_stopRecording.
  - assert (R : In (r, true) (recorders (recording_started s (remove_nth i (pending s)))) /\
                mediaRecorder (recording_started s (remove_nth i (pending s))) <> Some r).
    { unfold recording_started; simpl. split.
      + apply in_or_app; left; exact Hin.
      + intro E. injection E as E. apply H3 in Hin. lia. }
    destruct (nth_error (pending s) i) as [[| | |]|]; auto.
  - destruct (nth_error (pending s) i) as [[| | |]|]; auto. destruct over; auto.
  - destruct (nth_error (pending s) i) as [[| | |]|]; auto. destruct audio; auto.
  - destruct (nth_error (pending s) i) as [[| | |]|]; auto.
Qed.

(** A recorder that is still recording but is no longer the popup's
    [mediaRecorder] (a second [startRecording] replaced it) is never
    stopped: [stopRecording] only stops [mediaRecorder], so it stays
    recording whatever events follow. *)
Theorem orphan_recorder_never_stopped : forall evs0 evs r,
  In (r, true) (recorders (run init evs0)) ->
  mediaRecorder (run init evs0) <> Some r ->
  In (r, true) (recorders (run (run init evs0) evs)).
Proof.
  intros evs0 evs r. generalize (popup_invariant evs0).
  generalize (run init evs0) as s. revert r.
  induction evs as [|ev evs IH]; intros r s Hs Hin Hm; [exact Hin|].
  simpl. destruct (orphan_step s ev r Hs Hin Hm) as [Hin' Hm'].
  apply IH; [apply inv_step, Hs | exact Hin' | exact Hm'].
Qed.

Lemma orphan_recorder_never_stopped_witness :
  In (0, true) (recorders (run init [Press; Press; GumGranted 0; GumGranted 0])) /\
  In (0, true) (recorders (run (run init [Press; Press; GumGranted 0; GumGranted 0])
                            [Release; StopFired 0 true; PipelineDone 0])).
Proof.
  split; [simpl; tauto|].
  apply orphan_recorder_never_stopped; [simpl; tauto | discriminate].
Defined.

Lemma nth_error_last : forall {A} (l : list A) x,
  nth_error (l ++ [x]) (List.length (l ++ [x]) - 1) = Some x.
Proof.
  intros A l x. rewrite length_app. cbn [List.length].
  replace (List.length l + 1 - 1) with (List.length l) by lia.
  rewrite nth_error_app2 by lia. now rewrite Nat.sub_diag.
Qed.

(** After an [OverconstrainedError], [startRecording] calls
    [trySimpleRecording], which asks for the microphone again: when that
    request is granted a new recorder starts and the button shows
    "recording"; when it fails the button is reset to "ready". *)
Theorem overconstrained_retry : forall s i,
  nth_error (pending s) i = Some TGetUserMedia ->
  let s1 := step s (GumFailed i true) in
  let j := List.length (pending s1) - 1 in
  nth_error (pending s1) j = Some TSimpleGetUserMedia /\
  (isRecording (step s1 (GumGranted j)) = true /\
   mediaRecorder (step s1 (GumGranted j)) = Some (next_id s) /\
   In (next_id s, true) (recorders (step s1 (GumGranted j))) /\
   button (step s1 (GumGranted j)) = BRecording) /\
  (forall over, button (step s1 (GumFailed j over)) = BReady).
Proof.
  intros s i H s1 j.
  assert (Hj : nth_error (pending s1) j = Some TSimpleGetUserMedia).
  { unfold j, s1; simpl. rewrite H. apply nth_error_last. }
  split; [exact Hj|]. split.
  - assert (N : next_id s1 = next_id s) by (unfold s1; simpl; now rewrite H).
    simpl. rewrite Hj. unfold recording_started; cbn [isRecording mediaRecorder recorders button].
    rewrite N. repeat split. apply in_or_app; right; left; reflexivity.
  - intro over. simpl. rewrite Hj. reflexivity.
Qed.

Lemma overconstrained_retry_witness :
  nth_error (pending (run init [Press])) 0 = Some TGetUserMedia /\
  button (run init [Press; GumFailed 0 true; GumGranted 0]) = BRecording /\
  button (run init [Press; GumFailed 0 true; GumFailed 0 false]) = BReady.
Proof.
  split; [reflexivity|].
  destruct (overconstrained_retry (run init [Press]) 0 eq_refl) as [_ [[_ [_ [_ W]]] W']].
  split; [exact W | exact (W' false)].
Defined.

End PopupFacts.

(** ** Responses between the content script, the background and the popup *)

Module MessagingFacts.
Import Dom Exec Messaging.

(** With no usable active tab, or when the message cannot reach the
    content script, the page is left untouched and the popup shows the
    error ("No active tab found", or the browser's message). *)
Theorem voice_command_failure_status : forall sv active del url title c d,
  (tab_ok active = false ->
     handleVoiceCommand sv active del url title c d =
       (mkBgResponse false None (Some "No active tab found"), d) /\
     processVoiceCommand (Some (fst (handleVoiceCommand sv active del url title c d))) =
       ("❌ No active tab found", Popup.BReady)) /\
  (forall msg, tab_ok active = true -> del = Rejected msg ->
     snd (handleVoiceCommand sv active del url title c d) = d /\
     processVoiceCommand (Some (fst (handleVoiceCommand sv active del url title c d))) =
       ("❌ " ++ msg, Popup.BReady)).
Proof.
  intros sv active del url title c d. unfold handleVoiceCommand. split.
  - intro H. rewrite H. split; reflexivity.
  - intros msg H ->. rewrite H. split; reflexivity.
Qed.

Lemma voice_command_failure_status_witness :
  tab_ok None = false /\
  processVoiceCommand
    (Some (fst (handleVoiceCommand any_sanitizer None Delivered "" ""
                  (mkCommand (Some "next")) CommandFacts.empty_page))) =
    ("❌ No active tab found", Popup.BReady).
Proof.
  split; [reflexivity|].
  apply (proj1 (voice_command_failure_status any_sanitizer None Delivered "" ""
                  (mkCommand (Some "next")) CommandFacts.empty_page) eq_refl).
Defined.

(** When the command reaches the content script, the background answers
    [success: true] with the content script's whole response nested in
    [result], so the popup shows "Command executed successfully" whatever
    that response says ("Command not recognized", "No search box found on
    this page", ...). *)
Theorem voice_command_success_status : forall sv active url title c d,
  tab_ok active = true ->
  bg_result (fst (handleVoiceCommand sv active Delivered url title c d)) =
    Some (ExecReply (fst (handleExecuteCommand sv c d))) /\
  snd (handleVoiceCommand sv active Delivered url title c d) =
    snd (handleExecuteCommand sv c d) /\
  processVoiceCommand (Some (fst (handleVoiceCommand sv active Delivered url title c d))) =
    ("✅ Command executed successfully", Popup.BReady).
Proof.
  intros sv active url title c d H. unfold handleVoiceCommand, content_onMessage.
  rewrite H. simpl. destruct (handleExecuteCommand sv c d). repeat split.
Qed.

Lemma voice_command_success_status_witness :
  tab_ok (Some (mkTab (Some 1))) = true /\
  bg_result (fst (handleVoiceCommand any_sanitizer (Some (mkTab (Some 1))) Delivered "" ""
                    (mkCommand (Some "filter under 100")) CommandFacts.empty_page)) =
    Some (ExecReply (mkResponse true (Some "Command not recognized") None)) /\
  processVoiceCommand
    (Some (fst (handleVoiceCommand any_sanitizer (Some (mkTab (Some 1))) Delivered "" ""
                  (mkCommand (Some "filter under 100")) CommandFacts.empty_page))) =
    ("✅ Command executed successfully", Popup.BReady).
Proof.
  destruct (voice_command_success_status any_sanitizer (Some (mkTab (Some 1))) "" ""
              (mkCommand (Some "filter under 100")) CommandFacts.empty_page eq_refl)
    as [H1 [_ H3]].
  split; [reflexivity|]. split; [rewrite H1; reflexivity | exact H3].
Defined.

End MessagingFacts.
